(** * FileHandler: file-set resolution and revision-directory allocation

    A shallow embedding of [lintAndFormatChanges/Utils/FileHandler.py].

    The Python functions are embedded as computations in a state-and-exception
    monad over a [World]: the file system, the process environment (current
    directory, user name, location of the module), the standard error stream
    and the two black boxes the module talks to (the [git] executable and the
    wildcard part of [glob.glob]).

    Conventions.
    - A Python [bytes] value is a [string] (a list of 8-bit characters); a
      Python [str] is represented by its UTF-8 encoding, so [bytes.decode()]
      is a validity check that returns its argument.  Splitting on ["\n"] or
      ["/"] commutes with that representation, since neither byte occurs
      inside a multi-byte sequence.
    - Symbolic links are not modelled; a path is looked up component by
      component, [".."] stepping to the parent directory.
    - [assert] statements are executed (the interpreter does not run with
      [-O]).
    - The file system has no limit on the length of a name or of a path,
      and no permissions: every directory can be searched and written.
      Where a property depends on it, the names are taken within the limits
      of the system ([within_limits]). *)

From Stdlib Require Import ZArith Ascii String List Lia Bool.
From Stdlib Require Import DecimalString DecimalZ DecimalN DecimalPos DecimalFacts.
From stdpp Require Import base decidable countable gmap sets list strings.

Local Open Scope string_scope.
Local Open Scope Z_scope.

(** ** Bytes and strings *)

Module Str.

Definition LF : ascii := "010"%char.
Definition CR : ascii := "013"%char.
Definition slash : ascii := "/"%char.

Definition code (c : ascii) : N := N_of_ascii c.

Definition in_range (lo hi : N) (c : ascii) : bool :=
  ((lo <=? code c) && (code c <=? hi))%N.

(** [Py_ISSPACE]: the six ASCII white-space characters stripped by
    [bytes.strip()] and skipped by [int()]. *)
Definition is_space (c : ascii) : bool :=
  in_range 9 13 c || (code c =? 32)%N.

Definition is_empty (s : string) : bool :=
  match s with "" => true | _ => false end.

Fixpoint lstrip (s : string) : string :=
  match s with
  | String c s' => if is_space c then lstrip s' else s
  | "" => ""
  end.

Fixpoint rstrip (s : string) : string :=
  match s with
  | String c s' =>
      let r := rstrip s' in
      if is_space c && is_empty r then "" else String c r
  | "" => ""
  end.

(** [bytes.strip()] *)
Definition strip (s : string) : string := lstrip (rstrip s).

(** [str.split(sep)] for a one-character separator: never the empty list,
    [split sep ""] is [[""]]. *)
Fixpoint split (sep : ascii) (s : string) : list string :=
  match s with
  | "" => [""]
  | String c s' =>
      if Ascii.eqb c sep then "" :: split sep s'
      else match split sep s' with
           | w :: ws => String c w :: ws
           | [] => [String c ""]
           end
  end.

(** ["/".join(parts)] *)
Fixpoint join (sep : string) (parts : list string) : string :=
  match parts with
  | [] => ""
  | [p] => p
  | p :: ps => p +:+ sep +:+ join sep ps
  end.

Fixpoint contains (c : ascii) (s : string) : bool :=
  match s with
  | "" => false
  | String c' s' => Ascii.eqb c' c || contains c s'
  end.

Fixpoint all_chars (P : ascii → bool) (s : string) : bool :=
  match s with
  | "" => true
  | String c s' => P c && all_chars P s'
  end.

Definition is_ascii (s : string) : bool := all_chars (in_range 0 127) s.

(** Well-formed UTF-8 byte sequences (Unicode, table 3-7): what the strict
    decoder behind [bytes.decode()] and text-mode reads accepts. *)
Fixpoint utf8_valid (s : string) : bool :=
  match s with
  | "" => true
  | String b0 s1 =>
      if in_range 0 127 b0 then utf8_valid s1
      else
        match s1 with
        | "" => false
        | String b1 s2 =>
            if in_range 194 223 b0 then in_range 128 191 b1 && utf8_valid s2
            else
              match s2 with
              | "" => false
              | String b2 s3 =>
                  if (in_range 224 224 b0 && in_range 160 191 b1
                      || in_range 225 236 b0 && in_range 128 191 b1
                      || in_range 237 237 b0 && in_range 128 159 b1
                      || in_range 238 239 b0 && in_range 128 191 b1)
                  then in_range 128 191 b2 && utf8_valid s3
                  else
                    match s3 with
                    | "" => false
                    | String b3 s4 =>
                        (in_range 240 240 b0 && in_range 144 191 b1
                         || in_range 241 243 b0 && in_range 128 191 b1
                         || in_range 244 244 b0 && in_range 128 143 b1)
                        && in_range 128 191 b2 && in_range 128 191 b3
                        && utf8_valid s4
                    end
              end
        end
  end.

(** Text-mode reading with [newline=None]: ["\r\n"] and a lone ["\r"]
    become ["\n"]. *)
Fixpoint universal_newlines (s : string) : string :=
  match s with
  | "" => ""
  | String c s' =>
      if Ascii.eqb c CR then
        match s' with
        | String c' s'' =>
            if Ascii.eqb c' LF then String LF (universal_newlines s'')
            else String LF (universal_newlines s')
        | "" => String LF ""
        end
      else String c (universal_newlines s')
  end.

End Str.

(** ** Python integers: [int(str)] and [str(int)] *)

Module PyInt.

Definition digit_val (c : ascii) : option Z :=
  if Str.in_range 48 57 c then Some (Z.of_N (Str.code c) - 48) else None.

Definition underscore : ascii := "_"%char.

(** The digit scan of [PyLong_FromString] in base 10: digits, with single
    underscores allowed between them.  [prev] is the character consumed
    last, [n] the number of digits seen.  Returns the value, the number of
    digits and the unread rest; [None] on a doubled or trailing
    underscore. *)
Fixpoint scan (s : string) (prev : ascii) (acc : Z) (n : nat)
  : option (Z * nat * string) :=
  match s with
  | "" => if Ascii.eqb prev underscore then None else Some (acc, n, "")
  | String c s' =>
      if Ascii.eqb c underscore then
        if Ascii.eqb prev underscore then None else scan s' c acc n
      else
        match digit_val c with
        | Some d => scan s' c (10 * acc + d) (S n)
        | None => if Ascii.eqb prev underscore then None else Some (acc, n, s)
        end
  end.

Definition sign_of (s : string) : Z * string :=
  match s with
  | String "+" s' => (1, s')
  | String "-" s' => (-1, s')
  | _ => (1, s)
  end.

(** [int(s)] for a [str] of ASCII characters: optional white space, an
    optional sign, the digits, optional white space; [None] is
    [ValueError]. *)
Definition of_ascii_string (s : string) : option Z :=
  let '(sign, body) := sign_of (Str.lstrip s) in
  match body with
  | String "_" _ => None
  | _ =>
      match scan body "000"%char 0 0 with
      | Some (v, n, rest) =>
          if (Nat.eqb n 0) then None
          else if Str.is_empty (Str.lstrip rest) then Some (sign * v)
          else None
      | None => None
      end
  end.

(** [str(z)]: the decimal numeral, with a leading minus sign when
    negative. *)
Definition to_string (z : Z) : string :=
  NilZero.string_of_int (Z.to_int z).

End PyInt.

(** ** Paths: [pathlib.PurePosixPath] *)

Record Path := MkPath {
  root : string;          (* [""], ["/"] or ["//"] *)
  tail : list string      (* the components after the root *)
}.

Global Instance Path_eq_dec : EqDecision Path.
Proof. solve_decision. Defined.

Global Instance Path_countable : Countable Path :=
  inj_countable' (λ p, (root p, tail p)) (λ x, MkPath x.1 x.2)
    (λ p, match p with MkPath _ _ => eq_refl end).

Module PurePath.

(** [posixpath.splitroot]: one leading slash, or exactly two, is kept as
    the root; three or more collapse to one. *)
Definition root_of (s : string) : string :=
  match s with
  | String "/" (String "/" (String "/" _)) => "/"
  | String "/" (String "/" _) => "//"
  | String "/" _ => "/"
  | _ => ""
  end.

Definition keep_part (x : string) : bool :=
  negb (Str.is_empty x) && negb (String.eqb x ".").

(** [Path(s)]: empty and ["."] components are dropped. *)
Definition of_string (s : string) : Path :=
  MkPath (root_of s) (filter (λ x, Is_true (keep_part x)) (Str.split Str.slash s)).

(** [str(path)] *)
Definition to_string (p : Path) : string :=
  match root p, tail p with
  | "", [] => "."
  | r, t => r +:+ Str.join "/" t
  end.

Definition is_absolute (p : Path) : bool := negb (Str.is_empty (root p)).

(** [path / s] *)
Definition joinpath (p : Path) (s : string) : Path :=
  let q := of_string s in
  if is_absolute q then q else MkPath (root p) (tail p ++ tail q).

(** [path.parent] *)
Definition parent (p : Path) : Path := MkPath (root p) (removelast (tail p)).

(** [path.name] *)
Definition name (p : Path) : string := List.last (tail p) "".

(** [path._make_child_relpath(name)], used by [iterdir]: a directory
    entry becomes one more component. *)
Definition child (p : Path) (entry : string) : Path :=
  MkPath (root p) (tail p ++ [entry]).

End PurePath.

Notation "p // s" := (PurePath.joinpath p s) (at level 40, left associativity).

(** ** The file system *)

Inductive Node := File (content : string) | Dir.

(** A location is the list of directory-entry names leading to a node,
    innermost first; [[]] is the root directory. *)
Definition Loc := list string.

(** The nodes, keyed by location.  The order of the list is the order in
    which a directory listing reports the entries. *)
Definition FS := list (Loc * Node).

Inductive Errno := ENOENT | ENOTDIR | EEXIST | EISDIR.

Global Instance Errno_eq_dec : EqDecision Errno.
Proof. solve_decision. Defined.

Global Instance Node_eq_dec : EqDecision Node.
Proof. solve_decision. Defined.

Module Fs.

Fixpoint assoc (fs : FS) (loc : Loc) : option Node :=
  match fs with
  | [] => None
  | (k, n) :: fs' => if decide (k = loc) then Some n else assoc fs' loc
  end.

Definition node_at (fs : FS) (loc : Loc) : option Node :=
  match loc with
  | [] => Some Dir
  | _ => assoc fs loc
  end.

(** The entries of the directory at [loc], in listing order. *)
Definition children (fs : FS) (loc : Loc) : list string :=
  omap (λ e : Loc * Node,
          match e.1 with
          | c :: l => if decide (l = loc) then Some c else None
          | [] => None
          end) fs.

(** One step of path resolution, from a location that must be a
    directory. *)
Definition step (fs : FS) (loc : Loc) (c : string) : Errno + Loc :=
  match node_at fs loc with
  | None => inl ENOENT
  | Some (File _) => inl ENOTDIR
  | Some Dir =>
      if decide (c = "" ∨ c = ".") then inr loc
      else if decide (c = "..") then inr (List.tl loc)
      else match node_at fs (c :: loc) with
           | Some _ => inr (c :: loc)
           | None => inl ENOENT
           end
  end.

Fixpoint walk (fs : FS) (loc : Loc) (comps : list string) : Errno + Loc :=
  match comps with
  | [] => inr loc
  | c :: rest =>
      match step fs loc c with
      | inr loc' => walk fs loc' rest
      | inl e => inl e
      end
  end.

(** [stat]: the node a component list leads to. *)
Definition stat (fs : FS) (from : Loc) (comps : list string) : Errno + Node :=
  match walk fs from comps with
  | inr loc => match node_at fs loc with Some n => inr n | None => inl ENOENT end
  | inl e => inl e
  end.

(** [mkdir(2)]: all components but the last are resolved, the last one
    is created, whatever its length. *)
Definition mkdir (fs : FS) (from : Loc) (comps : list string) : Errno + FS :=
  match rev comps with
  | [] => inl EEXIST
  | c :: rinit =>
      match walk fs from (rev rinit) with
      | inl e => inl e
      | inr loc =>
          match node_at fs loc with
          | None => inl ENOENT
          | Some (File _) => inl ENOTDIR
          | Some Dir =>
              if decide (c = "" ∨ c = "." ∨ c = "..") then inl EEXIST
              else match node_at fs (c :: loc) with
                   | Some _ => inl EEXIST
                   | None => inr (fs ++ [(c :: loc, Dir)])%list
                   end
          end
      end
  end.

(** Lexical normalisation ([os.path.normpath]) of components on top of a
    location. *)
Fixpoint normalize (loc : Loc) (comps : list string) : Loc :=
  match comps with
  | [] => loc
  | c :: rest =>
      if decide (c = "" ∨ c = ".") then normalize loc rest
      else if decide (c = "..") then normalize (List.tl loc) rest
      else normalize (c :: loc) rest
  end.

End Fs.

(** ** Exceptions, the world and the monad *)

Inductive Exn :=
| ValueError (literal : string)
    (* [int()] could not parse [literal] *)
| CalledProcessError (returncode : Z) (cmd : list string) (output : string)
| AssertionError
| OSError (errno : Errno) (filename : string)
    (* [FileNotFoundError], [NotADirectoryError], [FileExistsError] and
       [IsADirectoryError] are [OSError] at the matching [errno] *)
| UnicodeDecodeError.

Record World := MkWorld {
  fs : FS;
  cwd : Loc;
      (* the current working directory *)
  user : string;
      (* what [getpass.getuser()] returns *)
  module_file : string;
      (* [__file__] of FileHandler.py *)
  run : list string → Z * string;
      (* exit status and standard output of a command line *)
  glob_magic : string → list string;
      (* [glob(pattern, recursive=True)] for a pattern with wildcards *)
  int_non_ascii : string → option Z;
      (* [int(s)] for a [str] with characters outside ASCII *)
  stderr : list string
      (* what was printed to [sys.stderr], one entry per [print] *)
}.

Definition set_fs (w : World) (fs' : FS) : World :=
  MkWorld fs' (cwd w) (user w) (module_file w) (run w) (glob_magic w)
          (int_non_ascii w) (stderr w).

Definition add_stderr (w : World) (msg : string) : World :=
  MkWorld (fs w) (cwd w) (user w) (module_file w) (run w) (glob_magic w)
          (int_non_ascii w) (stderr w ++ [msg])%list.

Inductive Result (A : Type) :=
| Ok (a : A)
| Raise (e : Exn).
Arguments Ok {A} a.
Arguments Raise {A} e.

Definition M (A : Type) : Type := World → Result A * World.

Global Instance M_ret : MRet M := λ A a w, (Ok a, w).

Global Instance M_bind : MBind M := λ A B f m w,
  match m w with
  | (Ok a, w') => f a w'
  | (Raise e, w') => (Raise e, w')
  end.

Definition raise {A} (e : Exn) : M A := λ w, (Raise e, w).

Definition gets {A} (f : World → A) : M A := λ w, (Ok (f w), w).

(** [try: body / except <class> as e: handler e]: [handler] returns [None]
    on the exceptions the clause does not name. *)
Definition try_except {A} (body : M A) (handler : Exn → option (M A)) : M A :=
  λ w, match body w with
       | (Raise e, w') =>
           match handler e with
           | Some h => h w'
           | None => (Raise e, w')
           end
       | r => r
       end.

(** [print(msg, file=sys.stderr)] *)
Definition print_stderr (msg : string) : M unit :=
  λ w, (Ok tt, add_stderr w msg).

(** ** The library calls the module makes *)

(** [os.path] and [glob], which work on path strings. *)
Module Os.

Definition from (w : World) (s : string) : Loc :=
  match s with
  | String "/" _ => []
  | _ => cwd w
  end.

(** The empty path names nothing ([ENOENT]). *)
Definition stat (w : World) (s : string) : Errno + Node :=
  if Str.is_empty s then inl ENOENT
  else Fs.stat (fs w) (from w s) (Str.split Str.slash s).

Definition lexists (w : World) (s : string) : bool :=
  match stat w s with inr _ => true | inl _ => false end.

Definition isdir (w : World) (s : string) : bool :=
  match stat w s with inr Dir => true | _ => false end.

(** The part of [s] up to and including its last slash, and the part
    after it; [None] when [s] has no slash. *)
Fixpoint cut_last_slash (s : string) : option (string * string) :=
  match s with
  | "" => None
  | String c s' =>
      match cut_last_slash s' with
      | Some (h, t) => Some (String c h, t)
      | None => if Ascii.eqb c Str.slash then Some ("/", s') else None
      end
  end.

Fixpoint rstrip_slashes (s : string) : string :=
  match s with
  | String c s' =>
      let r := rstrip_slashes s' in
      if Ascii.eqb c Str.slash && Str.is_empty r then "" else String c r
  | "" => ""
  end.

(** [os.path.split] *)
Definition path_split (p : string) : string * string :=
  match cut_last_slash p with
  | None => ("", p)
  | Some (head, tail) =>
      (if Str.all_chars (Ascii.eqb Str.slash) head then head
       else rstrip_slashes head, tail)
  end.

(** [glob.has_magic] *)
Definition has_magic (s : string) : bool :=
  Str.contains "*" s || Str.contains "?" s || Str.contains "[" s.

(** [glob.glob(pathname, recursive=True)].  A pattern without wildcards
    names at most itself; the expansion of wildcards is left to the
    world. *)
Definition glob (w : World) (pathname : string) : list string :=
  let '(dirname, basename) := path_split pathname in
  if has_magic pathname then glob_magic w pathname
  else if negb (Str.is_empty basename) then
    if lexists w pathname then [pathname] else []
  else
    if isdir w dirname then [pathname] else [].

End Os.

(** [pathlib.Path]: the calls that touch the file system. *)
Module Pathlib.

Definition from (w : World) (p : Path) : Loc :=
  if PurePath.is_absolute p then [] else cwd w.

Definition stat (w : World) (p : Path) : Errno + Node :=
  Fs.stat (fs w) (from w p) (tail p).

(** [path.exists()]: false on the errors a lookup can report here,
    [ENOENT] and [ENOTDIR], which [exists()] takes for absence.  The errors
    it would re-raise ([ENAMETOOLONG], [EACCES]) are not in [Errno]: the
    file system has neither limits nor permissions. *)
Definition path_exists (w : World) (p : Path) : bool :=
  match stat w p with inr _ => true | inl _ => false end.

(** [path.is_dir()] *)
Definition is_dir (w : World) (p : Path) : bool :=
  match stat w p with inr Dir => true | _ => false end.

(** [path.resolve()]: absolute, without [".."]. *)
Definition resolve (w : World) (p : Path) : Path :=
  MkPath "/" (rev (Fs.normalize (if PurePath.is_absolute p then [] else cwd w) (tail p))).

Definition os_error {A} (e : Errno) (p : Path) : M A :=
  raise (OSError e (PurePath.to_string p)).

(** [path.mkdir(parents=False, exist_ok=exist_ok)] *)
Definition mkdir_flat (p : Path) (exist_ok : bool) : M unit :=
  λ w, match Fs.mkdir (fs w) (from w p) (tail p) with
       | inr fs' => (Ok tt, set_fs w fs')
       | inl ENOENT => os_error ENOENT p w
       | inl e =>
           if negb exist_ok || negb (is_dir w p) then os_error e p w
           else (Ok tt, w)
       end.

(** [path.mkdir(parents=True, exist_ok=exist_ok)] for the path with root
    [r] and components [rev rparts]: on [FileNotFoundError] the parent is
    made first (with [exist_ok=True]) and the directory itself is then
    made without [parents]. *)
Fixpoint mkdir_parents (r : string) (rparts : list string) (exist_ok : bool)
  : M unit :=
  let p := MkPath r (rev rparts) in
  λ w, match Fs.mkdir (fs w) (from w p) (tail p) with
       | inr fs' => (Ok tt, set_fs w fs')
       | inl ENOENT =>
           match rparts with
           | [] => os_error ENOENT p w         (* [self.parent == self] *)
           | _ :: rparent =>
               (mkdir_parents r rparent true ;; mkdir_flat p exist_ok) w
           end
       | inl e =>
           if negb exist_ok || negb (is_dir w p) then os_error e p w
           else (Ok tt, w)
       end.

(** [path.mkdir(parents=parents, exist_ok=exist_ok)] *)
Definition mkdir (p : Path) (parents exist_ok : bool) : M unit :=
  if parents then mkdir_parents (root p) (rev (tail p)) exist_ok
  else mkdir_flat p exist_ok.

(** [os.listdir(path)]: the names of the entries of a directory. *)
Definition listdir (w : World) (p : Path) : Errno + list string :=
  match Fs.walk (fs w) (from w p) (tail p) with
  | inl e => inl e
  | inr loc =>
      match Fs.node_at (fs w) loc with
      | None => inl ENOENT
      | Some (File _) => inl ENOTDIR
      | Some Dir => inr (Fs.children (fs w) loc)
      end
  end.

(** [path.iterdir()], consumed to the end: one child path per entry. *)
Definition iterdir (p : Path) : M (list Path) :=
  λ w, match listdir w p with
       | inl e => os_error e p w
       | inr names => (Ok (map (PurePath.child p) names), w)
       end.

(** [bytes.decode()], and the decoding step of a text-mode read (the
    locale's encoding is taken to be UTF-8). *)
Definition decode (b : string) : M string :=
  if Str.utf8_valid b then mret b else raise UnicodeDecodeError.

(** [path.read_text()] *)
Definition read_text (p : Path) : M string :=
  λ w, match stat w p with
       | inl e => os_error e p w
       | inr Dir => os_error EISDIR p w
       | inr (File content) =>
           (s ← decode content; mret (Str.universal_newlines s)) w
       end.

End Pathlib.

(** [subprocess.check_output(args)] *)
Definition check_output (args : list string) : M string :=
  λ w, let '(returncode, output) := run w args in
       if decide (returncode = 0) then (Ok output, w)
       else (Raise (CalledProcessError returncode args output), w).

(** [int(s)]: [None] stands for [ValueError].  (The limit on the number of
    digits, 4300 by default, is beyond the length of a directory-entry
    name.) *)
Definition py_int (w : World) (s : string) : option Z :=
  if Str.is_ascii s then PyInt.of_ascii_string s else int_non_ascii w s.

Definition int (s : string) : M Z :=
  λ w, match py_int w s with
       | Some z => (Ok z, w)
       | None => (Raise (ValueError s), w)
       end.

(** [max(l)] for a non-empty list *)
Definition max_list (x : Z) (xs : list Z) : Z := fold_left Z.max xs x.

(** ** FileHandler.py *)

Definition ALLOWLISTPATH (w : World) : Path :=
  PurePath.parent (PurePath.of_string (module_file w)) // "../config/allowlist.txt".

Definition DENYLISTPATH (w : World) : Path :=
  PurePath.parent (PurePath.of_string (module_file w)) // "../config/denylist.txt".

Definition unexpected_subdir_message (w : World) (subdir userTmpDir : Path) : string :=
  "Error: unexpected sub-directory '" +:+ PurePath.to_string subdir +:+ "'"
  +:+ String Str.LF (PurePath.to_string (Pathlib.resolve w userTmpDir)
  +:+ " should only contain numbered directories.").

(** The [for subdir in userTmpDir.iterdir()] loop of [createTmpDir];
    [subdirs] is the list built so far. *)
Fixpoint createTmpDir_loop (userTmpDir : Path) (entries : list Path)
    (subdirs : list Z) : M (list Z) :=
  match entries with
  | [] => mret subdirs
  | subdir :: rest =>
      n ← try_except (int (PurePath.name subdir))
            (λ invalidDir,
               match invalidDir with
               | ValueError _ =>
                   Some (msg ← gets (λ w, unexpected_subdir_message w subdir userTmpDir);
                         print_stderr msg ;;
                         raise invalidDir)
               | _ => None
               end);
      createTmpDir_loop userTmpDir rest (subdirs ++ [n])
  end.

Definition createTmpDir (baseDir : Path) : M Path :=
  username ← gets user;
  let userTmpDir := baseDir // username in
  Pathlib.mkdir userTmpDir true true ;;
  entries ← Pathlib.iterdir userTmpDir;
  subdirs ← createTmpDir_loop userTmpDir entries [];
  let revision :=
    match subdirs with
    | x :: xs => max_list x xs + 1
    | [] => 0
    end in
  let revisionDir := userTmpDir // PyInt.to_string revision in
  Pathlib.mkdir revisionDir false false ;;
  mret revisionDir.

(** [except subprocess.CalledProcessError as e: print(msg, file=sys.stderr);
    raise e] *)
Definition on_CalledProcessError {A} (msg : string) (e : Exn) : option (M A) :=
  match e with
  | CalledProcessError _ _ _ => Some (print_stderr msg ;; raise e)
  | _ => None
  end.

(** The default of the second parameter, [end="HEAD"], is written out by
    the callers. *)
Definition getMergeBase (start end_ : string) : M string :=
  try_except
    (out ← check_output ["git"; "merge-base"; start; end_];
     Pathlib.decode (Str.strip out))
    (on_CalledProcessError "Error occurred while getting merge base of commits.").

Definition getChangedFiles (fromCommit toCommit : string) : M (list Path) :=
  pathStrings ←
    try_except
      (out ← check_output ["git"; "diff"; "--name-only"; fromCommit; toCommit];
       s ← Pathlib.decode (Str.strip out);
       mret (Str.split Str.LF s))
      (on_CalledProcessError "Error occurred while getting changed files.");
  let changed := map PurePath.of_string pathStrings in
  changed ← gets (λ w, filter (λ path, Is_true (Pathlib.path_exists w path)) changed);
  mret changed.

Definition getAllTrackedFiles : M (list Path) :=
  pathStrings ←
    try_except
      (out ← check_output ["git"; "ls-tree"; "-r"; "--full-tree"; "--name-only"; "HEAD"];
       s ← Pathlib.decode (Str.strip out);
       mret (Str.split Str.LF s))
      (on_CalledProcessError "Error occurred while getting tracked files.");
  let tracked := map PurePath.of_string pathStrings in
  mret tracked.

(** The [for globString in globStrings] loop of [getGlobsFromFile]. *)
Fixpoint getGlobsFromFile_loop (globStrings : list string) (pathSet : gset Path)
  : M (gset Path) :=
  match globStrings with
  | [] => mret pathSet
  | globString :: rest =>
      pathStrings ← gets (λ w, Os.glob w globString);
      getGlobsFromFile_loop rest
        (pathSet ∪ list_to_set (map PurePath.of_string pathStrings))
  end.

(** [assert cond] *)
Definition assert (cond : bool) : M unit :=
  if cond then mret tt else raise AssertionError.

Definition getGlobsFromFile (globlistFile : Path) : M (gset Path) :=
  text ← Pathlib.read_text globlistFile;
  let globStrings := Str.split Str.LF text in
  pathSet ← getGlobsFromFile_loop globStrings ∅;
  ok ← gets (λ w, bool_decide (set_Forall (λ path, Is_true (Pathlib.path_exists w path)) pathSet));
  assert ok ;;
  mret pathSet.

Definition getFormattablePaths : M (gset Path) :=
  allowlist ← gets ALLOWLISTPATH;
  allowlistPaths ← getGlobsFromFile allowlist;
  denylist ← gets DENYLISTPATH;
  denylistPaths ← getGlobsFromFile denylist;
  mret (allowlistPaths ∖ denylistPaths).

Definition getFilesToFormat (changedSince : string) : M (gset Path) :=
  mergeBase ← getMergeBase changedSince "HEAD";
  changedFiles ← getChangedFiles mergeBase "HEAD";
  formattablePaths ← getFormattablePaths;
  mret (list_to_set changedFiles ∩ formattablePaths).

Definition getTrackedFormattablePaths : M (gset Path) :=
  trackedFiles ← getAllTrackedFiles;
  formattablePaths ← getFormattablePaths;
  mret (list_to_set trackedFiles ∩ formattablePaths).

(** * The vocabulary of the properties *)

(** The three command lines the module runs. *)
Definition merge_base_cmd (start end_ : string) : list string :=
  ["git"; "merge-base"; start; end_].

Definition diff_cmd (fromCommit toCommit : string) : list string :=
  ["git"; "diff"; "--name-only"; fromCommit; toCommit].

Definition ls_tree_cmd : list string :=
  ["git"; "ls-tree"; "-r"; "--full-tree"; "--name-only"; "HEAD"].

(** The exception [check_output] raises for a command line that exits
    with a non-zero status. *)
Definition command_failure (w : World) (args : list string) : Exn :=
  CalledProcessError (run w args).1 args (run w args).2.

(** How a command line ends in a world. *)
Definition exits_nonzero (w : World) (args : list string) : Prop :=
  (run w args).1 ≠ 0.

Definition exits_zero_with (w : World) (args : list string) (out : string) : Prop :=
  run w args = (0, out).

(** The path candidates of a command's output: one per line of the
    stripped text. *)
Definition path_candidates (out : string) : list Path :=
  map PurePath.of_string (Str.split Str.LF (Str.strip out)).

(** Those of [paths] that are on disk, in order. *)
Definition existing (w : World) (paths : list Path) : list Path :=
  filter (λ path, Is_true (Pathlib.path_exists w path)) paths.

(** What the specification asks of the resolution of a glob list: the union,
    over the patterns, of each pattern's own expansion, as a set of paths. *)
Definition glob_union (w : World) (patterns : list string) : gset Path :=
  ⋃ (map (λ pattern, list_to_set (map PurePath.of_string (Os.glob w pattern)) : gset Path)
         patterns).

(** Every path of the set is on disk. *)
Definition all_exist (w : World) (paths : gset Path) : Prop :=
  set_Forall (λ path, Is_true (Pathlib.path_exists w path)) paths.

(** Where a path leads. *)
Definition locate (w : World) (p : Path) : Errno + Loc :=
  Fs.walk (fs w) (Pathlib.from w p) (tail p).

(** A directory-entry name that is one path component of its own. *)
Definition plain (c : string) : Prop := ¬ (c = "" ∨ c = "." ∨ c = "..").

(** The characters of a numeral: digits, after an optional minus sign. *)
Definition numeral_char (c : ascii) : bool :=
  Str.in_range 48 57 c || Ascii.eqb c "-".

(** Each entry name parses, to the integers [ints] in order. *)
Definition numbered (w : World) (names : list string) (ints : list Z) : Prop :=
  Forall2 (λ name z, py_int w name = Some z) names ints.

(** The revision number chosen from the integers found. *)
Definition next_revision (ints : list Z) : Z :=
  match ints with
  | x :: xs => max_list x xs + 1
  | [] => 0
  end.

(** ** The limits of the system *)

(** A path handed to the system has no component longer than [NAME_MAX]
    bytes and is itself shorter than [PATH_MAX] bytes; a call with a path
    beyond them fails with [ENAMETOOLONG], which the file system above does
    not have. *)
Definition NAME_MAX : nat := 255.
Definition PATH_MAX : nat := 4096.

Definition within_limits (p : Path) : Prop :=
  Forall (λ c, (String.length c ≤ NAME_MAX)%nat) (tail p)
  ∧ (String.length (PurePath.to_string p) < PATH_MAX)%nat.

(** ** The output of the diff *)



(** ** The diagnostics *)





(** ** Changes of the world *)

(** [w] with more nodes on disk and more lines on the standard error
    stream; everything else as it is. *)
Definition extend (w : World) (extra : FS) (msgs : list string) : World :=
  MkWorld (fs w ++ extra)%list (cwd w) (user w) (module_file w) (run w)
          (glob_magic w) (int_non_ascii w) (stderr w ++ msgs)%list.

Definition directories (extra : FS) : Prop := Forall (λ e : Loc * Node, e.2 = Dir) extra.

(** A computation that changes the world by adding directories only, and
    prints only when it raises [ValueError]. *)
Definition only_adds {A} (m : M A) : Prop :=
  ∀ w r w', m w = (r, w') →
    ∃ extra msgs,
      w' = extend w extra msgs ∧ directories extra
      ∧ (msgs ≠ [] → ∃ bad, r = Raise (ValueError bad)).


(** Every node but the root's entries has its parent directory on disk. *)
Definition no_orphans (fs : FS) : Prop :=
  ∀ c l n, (c :: l, n) ∈ fs → l ≠ [] → Fs.assoc fs l = Some Dir.

(** A name that [pathlib] takes as one component: not empty, not a dot
    name, without a slash. *)
Definition component (c : string) : Prop :=
  plain c ∧ Str.all_chars (λ a, negb (Ascii.eqb a Str.slash)) c = true.

(** * Sample worlds

    A repository checked out at [/repo], with the module under
    [/repo/lint/Utils], the two glob lists under [/repo/lint/config] and an
    empty scratch directory [/tmp]. *)

Module Sample.

Definition text (lines : list string) : string :=
  Str.join (String Str.LF "") lines.

Definition allowlist : string := text ["*.py"; ""; "docs/"; "b.txt"].
Definition denylist : string := text ["e.py"; "b.txt"; ""].

Definition disk : FS :=
  [ (["repo"], Dir);
    (["a.py"; "repo"], File "");
    (["b.txt"; "repo"], File "");
    (["c.py"; "repo"], File "");
    (["d.py"; "repo"], File "");
    (["e.py"; "repo"], File "");
    (["lint"; "repo"], Dir);
    (["Utils"; "lint"; "repo"], Dir);
    (["config"; "lint"; "repo"], Dir);
    (["allowlist.txt"; "config"; "lint"; "repo"], File allowlist);
    (["denylist.txt"; "config"; "lint"; "repo"], File denylist);
    (["tmp"], Dir) ].

(** The scratch tree of [alice], with the given entries. *)
Definition scratch (names : list string) : FS :=
  (["alice"; "tmp"], Dir) :: map (λ name, ([name; "alice"; "tmp"], Dir)) names.

(** A [git] whose merge-base is [base], which can diff from [0123abc] only
    (to files of which [gone.py] is no longer on disk), and which tracks
    [a.py] and [gone.py]. *)
Definition git (base : string) (args : list string) : Z * string :=
  match args with
  | [_; cmd; _; _] =>
      if String.eqb cmd "merge-base" then (0, text [base; ""]) else (129, "")
  | [_; cmd; _; fromCommit; _] =>
      if String.eqb cmd "diff" && String.eqb fromCommit "0123abc"
      then (0, text ["a.py"; "b.txt"; "c.py"; "gone.py"; ""])
      else (128, "fatal: bad revision")
  | [_; cmd; _; _; _; _] =>
      if String.eqb cmd "ls-tree" then (0, text ["a.py"; "gone.py"; ""])
      else (129, "")
  | _ => (129, "")
  end.

Definition wildcard (pattern : string) : list string :=
  if String.eqb pattern "*.py" then ["a.py"; "c.py"; "d.py"; "e.py"] else [].

Definition world (disk : FS) (git : list string → Z * string) : World :=
  MkWorld disk ["repo"] "alice" "/repo/lint/Utils/FileHandler.py" git wildcard
          (λ _, None) [].

Definition repo : World := world disk (git "0123abc").
Definition diverged : World := world disk (git "feedbee").
Definition broken : World := world disk (λ _, (128, "fatal: not a git repository")).
Definition quiet : World := world disk (λ _, (0, "")).
Definition with_scratch (names : list string) : World :=
  world (disk ++ scratch names)%list (git "0123abc").

Definition tmp : Path := PurePath.of_string "/tmp".

End Sample.

(** ** More sample worlds *)

Module Scene.

(** The repository with a wildcard expansion that names a file which is
    not on disk. *)
Definition stale : World :=
  MkWorld Sample.disk ["repo"] "alice" "/repo/lint/Utils/FileHandler.py"
          (Sample.git "0123abc") (λ _, ["a.py"; "ghost.py"]) (λ _, None) [].

(** The scratch directory with a regular file where the per-user directory
    of [alice] would be. *)
Definition taken : World :=
  Sample.world (Sample.disk ++ [(["alice"; "tmp"], File "notes")])%list
               (Sample.git "0123abc").

(** The repository with nothing changed since the merge base: the diff
    prints nothing, the listing of the tracked files is as before. *)
Definition unchanged : World :=
  Sample.world Sample.disk
    (λ args, match args with
             | [_; _; _; _; _] => (0, "")
             | _ => Sample.git "0123abc" args
             end).


(** The repository with a glob list without wildcards, [literal.txt]:
    a file, the same file with a slash after it, a directory with a slash
    after it, a name that is not on disk, and an empty line. *)
Definition literal_lines : list string := ["a.py"; "a.py/"; "lint/"; "nothing.py"; ""].

Definition literal : World :=
  Sample.world
    (Sample.disk ++ [(["literal.txt"; "repo"], File (Sample.text literal_lines))])%list
    (Sample.git "0123abc").

End Scene.

(** * Properties *)

Local Open Scope list_scope.

(** ** The library model on examples *)

Example split_empty : Str.split Str.LF "" = [""].
Proof. reflexivity. Qed.

Example strip_lines :
  Str.split Str.LF (Str.strip (String Str.LF ("  a.py" +:+ String Str.LF ("b c.py" +:+ String Str.LF " "))))
  = ["a.py"; "b c.py"].
Proof. reflexivity. Qed.

Example int_examples :
  map PyInt.of_ascii_string ["0"; "-1"; " +12 "; "1_000"; "007"; ""; "scratch"; "1__0"; "_1"; "1_"; "-"; "1 2"; "--1"]
  = [Some 0; Some (-1); Some 12; Some 1000; Some 7; None; None; None; None; None; None; None; None].
Proof. reflexivity. Qed.

Example str_examples : map PyInt.to_string [0; 4; -1; 120] = ["0"; "4"; "-1"; "120"].
Proof. reflexivity. Qed.

Example path_examples :
  map PurePath.of_string [""; "."; "a//b/./c/"; "/a"; "//a"; "///a"; "../x"]
  = [MkPath "" []; MkPath "" []; MkPath "" ["a"; "b"; "c"]; MkPath "/" ["a"];
     MkPath "//" ["a"]; MkPath "/" ["a"]; MkPath "" [".."; "x"]].
Proof. reflexivity. Qed.

Example path_split_examples :
  map Os.path_split ["/tmp/alice/"; "/tmp/alice/0"; "../tmp"; "x"; "/"; "a//"; ""]
  = [("/tmp/alice", ""); ("/tmp/alice", "0"); ("..", "tmp"); ("", "x"); ("/", "");
     ("a", ""); ("", "")].
Proof. reflexivity. Qed.

Example glob_examples :
  map (Os.glob Sample.repo) [""; "a.py"; "gone.py"; "lint/config/"; "a.py/"; "*.py"]
  = [[]; ["a.py"]; []; ["lint/config/"]; []; ["a.py"; "c.py"; "d.py"; "e.py"]].
Proof. reflexivity. Qed.

(** ** Running computations *)

Lemma run_bind {A B} (m : M A) (f : A → M B) (w : World) :
  (m ≫= f) w =
  match m w with
  | (Ok a, w') => f a w'
  | (Raise e, w') => (Raise e, w')
  end.
Proof. reflexivity. Qed.

Lemma bind_Ok {A B} (m : M A) (f : A → M B) (w w' : World) (a : A) :
  m w = (Ok a, w') → (m ≫= f) w = f a w'.
Proof. intros H. rewrite run_bind, H. reflexivity. Qed.

Lemma bind_Raise {A B} (m : M A) (f : A → M B) (w w' : World) (e : Exn) :
  m w = (Raise e, w') → (m ≫= f) w = (Raise e, w').
Proof. intros H. rewrite run_bind, H. reflexivity. Qed.

Lemma try_except_Ok {A} (body : M A) handler (w w' : World) (a : A) :
  body w = (Ok a, w') → try_except body handler w = (Ok a, w').
Proof. intros H. unfold try_except. rewrite H. reflexivity. Qed.

(** ** The version-control commands *)

Lemma check_output_failure (w : World) (args : list string) :
  exits_nonzero w args →
  check_output args w = (Raise (command_failure w args), w).
Proof.
  unfold exits_nonzero, check_output, command_failure.
  destruct (run w args) as [rc out]; simpl. intros Hrc.
  destruct (decide (rc = 0)); [contradiction | reflexivity].
Qed.

Lemma check_output_success (w : World) (args : list string) (out : string) :
  exits_zero_with w args out → check_output args w = (Ok out, w).
Proof.
  unfold exits_zero_with, check_output. intros ->. reflexivity.
Qed.

(** The guarded block shared by the three commands: run, strip, decode,
    and hand the text to [k]. *)
Lemma guarded_command_failure {A} (w : World) (args : list string)
    (k : string → M A) (msg : string) :
  exits_nonzero w args →
  try_except (out ← check_output args; k out) (on_CalledProcessError msg) w
  = (Raise (command_failure w args), add_stderr w msg).
Proof.
  intros H. unfold try_except.
  rewrite (bind_Raise _ _ _ _ _ (check_output_failure w args H)).
  reflexivity.
Qed.

Lemma getMergeBase_failure (w : World) (start end_ : string) :
  exits_nonzero w (merge_base_cmd start end_) →
  getMergeBase start end_ w
  = (Raise (command_failure w (merge_base_cmd start end_)),
     add_stderr w "Error occurred while getting merge base of commits.").
Proof. intros H. unfold getMergeBase. apply guarded_command_failure, H. Qed.

Lemma getChangedFiles_failure (w : World) (fromCommit toCommit : string) :
  exits_nonzero w (diff_cmd fromCommit toCommit) →
  getChangedFiles fromCommit toCommit w
  = (Raise (command_failure w (diff_cmd fromCommit toCommit)),
     add_stderr w "Error occurred while getting changed files.").
Proof.
  intros H. unfold getChangedFiles.
  erewrite bind_Raise; [reflexivity |].
  apply (guarded_command_failure w _ (λ out, s ← Pathlib.decode (Str.strip out); mret (Str.split Str.LF s))), H.
Qed.

Lemma getAllTrackedFiles_failure (w : World) :
  exits_nonzero w ls_tree_cmd →
  getAllTrackedFiles w
  = (Raise (command_failure w ls_tree_cmd),
     add_stderr w "Error occurred while getting tracked files.").
Proof.
  intros H. unfold getAllTrackedFiles.
  erewrite bind_Raise; [reflexivity |].
  apply (guarded_command_failure w _ (λ out, s ← Pathlib.decode (Str.strip out); mret (Str.split Str.LF s))), H.
Qed.

(** The text a successful command hands on: its output, stripped, must
    decode. *)
Lemma guarded_command_success {A} (w : World) (args : list string)
    (k : string → M A) (msg out : string) :
  exits_zero_with w args out →
  try_except (out ← check_output args; k out) (on_CalledProcessError msg) w
  = try_except (k out) (on_CalledProcessError msg) w.
Proof.
  intros H. unfold try_except.
  rewrite (bind_Ok _ _ _ _ _ (check_output_success w args out H)).
  reflexivity.
Qed.

Lemma decode_valid (w : World) (b : string) :
  Str.utf8_valid b = true → Pathlib.decode b w = (Ok b, w).
Proof. intros H. unfold Pathlib.decode. rewrite H. reflexivity. Qed.

Lemma getMergeBase_success (w : World) (start end_ out : string) :
  exits_zero_with w (merge_base_cmd start end_) out →
  Str.utf8_valid (Str.strip out) = true →
  getMergeBase start end_ w = (Ok (Str.strip out), w).
Proof.
  intros Hrun Hutf. unfold getMergeBase.
  rewrite (guarded_command_success w _ (λ out, Pathlib.decode (Str.strip out)) _ out Hrun).
  apply try_except_Ok, decode_valid, Hutf.
Qed.

Lemma getChangedFiles_success (w : World) (fromCommit toCommit out : string) :
  exits_zero_with w (diff_cmd fromCommit toCommit) out →
  Str.utf8_valid (Str.strip out) = true →
  getChangedFiles fromCommit toCommit w
  = (Ok (existing w (path_candidates out)), w).
Proof.
  intros Hrun Hutf. unfold getChangedFiles.
  erewrite bind_Ok; [reflexivity |].
  rewrite (guarded_command_success w _
             (λ out, s ← Pathlib.decode (Str.strip out); mret (Str.split Str.LF s)) _ out Hrun).
  apply try_except_Ok. erewrite bind_Ok; [reflexivity |].
  apply decode_valid, Hutf.
Qed.

Lemma getAllTrackedFiles_success (w : World) (out : string) :
  exits_zero_with w ls_tree_cmd out →
  Str.utf8_valid (Str.strip out) = true →
  getAllTrackedFiles w = (Ok (path_candidates out), w).
Proof.
  intros Hrun Hutf. unfold getAllTrackedFiles.
  erewrite bind_Ok; [reflexivity |].
  rewrite (guarded_command_success w _
             (λ out, s ← Pathlib.decode (Str.strip out); mret (Str.split Str.LF s)) _ out Hrun).
  apply try_except_Ok. erewrite bind_Ok; [reflexivity |].
  apply decode_valid, Hutf.
Qed.

(** ** Glob lists *)

Lemma glob_union_cons (w : World) (pattern : string) (patterns : list string) :
  glob_union w (pattern :: patterns)
  = list_to_set (map PurePath.of_string (Os.glob w pattern)) ∪ glob_union w patterns.
Proof. reflexivity. Qed.

Lemma glob_union_app (w : World) (ps qs : list string) :
  glob_union w (ps ++ qs) = glob_union w ps ∪ glob_union w qs.
Proof.
  unfold glob_union. rewrite map_app. apply leibniz_equiv, union_list_app.
Qed.

Lemma elem_of_glob_union (w : World) (patterns : list string) (p : Path) :
  p ∈ glob_union w patterns ↔
  ∃ pattern, pattern ∈ patterns ∧ p ∈ map PurePath.of_string (Os.glob w pattern).
Proof.
  unfold glob_union. rewrite elem_of_union_list. split.
  - intros (X & HX & Hp). apply list_elem_of_fmap in HX as (pattern & -> & Hin).
    exists pattern. split; [exact Hin |]. now apply elem_of_list_to_set in Hp.
  - intros (pattern & Hin & Hp).
    exists (list_to_set (map PurePath.of_string (Os.glob w pattern))). split.
    + apply list_elem_of_fmap. exists pattern. split; [reflexivity | exact Hin].
    + now apply elem_of_list_to_set.
Qed.

Lemma getGlobsFromFile_loop_run (w : World) (globStrings : list string) (pathSet : gset Path) :
  getGlobsFromFile_loop globStrings pathSet w
  = (Ok (pathSet ∪ glob_union w globStrings), w).
Proof.
  revert pathSet. induction globStrings as [| g rest IH]; intros pathSet; simpl.
  - unfold glob_union; simpl. now rewrite (right_id_L ∅ (∪)).
  - rewrite run_bind. unfold gets. rewrite IH, glob_union_cons.
    now rewrite (assoc_L (∪)).
Qed.

Lemma read_text_world (w w' : World) (p : Path) (r : Result string) :
  Pathlib.read_text p w = (r, w') → w' = w.
Proof.
  unfold Pathlib.read_text, Pathlib.os_error, raise.
  destruct (Pathlib.stat w p) as [e | [content |]]; try congruence.
  unfold mbind, M_bind, Pathlib.decode.
  destruct (Str.utf8_valid content); unfold raise, mret, M_ret; congruence.
Qed.

(** [getGlobsFromFile], step by step. *)
Lemma getGlobsFromFile_run (w : World) (globlistFile : Path) :
  getGlobsFromFile globlistFile w =
  match Pathlib.read_text globlistFile w with
  | (Ok text, _) =>
      let pathSet := glob_union w (Str.split Str.LF text) in
      if bool_decide (all_exist w pathSet) then (Ok pathSet, w)
      else (Raise AssertionError, w)
  | (Raise e, _) => (Raise e, w)
  end.
Proof.
  unfold getGlobsFromFile. rewrite run_bind.
  destruct (Pathlib.read_text globlistFile w) as [[text | e] w'] eqn:Hread;
    apply read_text_world in Hread as ->; [| reflexivity].
  rewrite run_bind, getGlobsFromFile_loop_run, (left_id_L ∅ (∪)).
  rewrite run_bind. unfold gets. fold (all_exist w (glob_union w (Str.split Str.LF text))).
  rewrite run_bind. unfold assert.
  destruct (bool_decide _); reflexivity.
Qed.

Lemma getGlobsFromFile_Ok (w w' : World) (globlistFile : Path) (pathSet : gset Path) :
  getGlobsFromFile globlistFile w = (Ok pathSet, w') →
  w' = w ∧ all_exist w pathSet ∧
  ∃ text, Pathlib.read_text globlistFile w = (Ok text, w)
          ∧ pathSet = glob_union w (Str.split Str.LF text).
Proof.
  rewrite getGlobsFromFile_run.
  destruct (Pathlib.read_text globlistFile w) as [[text | e] w1] eqn:Hread; [| congruence].
  pose proof (read_text_world _ _ _ _ Hread) as ->. simpl.
  destruct (bool_decide (all_exist w _)) eqn:Hall; [| congruence].
  intros [= <- <-]. apply bool_decide_eq_true in Hall. eauto.
Qed.

Lemma getGlobsFromFile_world (w w' : World) (globlistFile : Path) (r : Result (gset Path)) :
  getGlobsFromFile globlistFile w = (r, w') → w' = w.
Proof.
  rewrite getGlobsFromFile_run.
  destruct (Pathlib.read_text globlistFile w) as [[text | e] w1]; simpl.
  - destruct (bool_decide _); congruence.
  - congruence.
Qed.

Lemma getGlobsFromFile_resolved (w : World) (globlistFile : Path) (text : string) :
  Pathlib.read_text globlistFile w = (Ok text, w) →
  all_exist w (glob_union w (Str.split Str.LF text)) →
  getGlobsFromFile globlistFile w = (Ok (glob_union w (Str.split Str.LF text)), w).
Proof.
  intros Hread Hall. rewrite getGlobsFromFile_run, Hread. simpl.
  now rewrite bool_decide_eq_true_2.
Qed.

(** The empty pattern matches nothing: [os.path.isdir("")] is false. *)
Lemma glob_empty_pattern (w : World) : Os.glob w "" = [].
Proof. reflexivity. Qed.

(** ** The formattable set *)

Lemma getFormattablePaths_run (w : World) :
  getFormattablePaths w =
  match getGlobsFromFile (ALLOWLISTPATH w) w with
  | (Ok allowlistPaths, _) =>
      match getGlobsFromFile (DENYLISTPATH w) w with
      | (Ok denylistPaths, _) => (Ok (allowlistPaths ∖ denylistPaths), w)
      | (Raise e, _) => (Raise e, w)
      end
  | (Raise e, _) => (Raise e, w)
  end.
Proof.
  unfold getFormattablePaths. rewrite run_bind. unfold gets at 1.
  rewrite run_bind.
  destruct (getGlobsFromFile (ALLOWLISTPATH w) w) as [[allow | e] w1] eqn:Ha;
    apply getGlobsFromFile_world in Ha as ->; [| reflexivity].
  rewrite run_bind. unfold gets. rewrite run_bind.
  destruct (getGlobsFromFile (DENYLISTPATH w) w) as [[deny | e] w1] eqn:Hd;
    apply getGlobsFromFile_world in Hd as ->; reflexivity.
Qed.

Lemma getFormattablePaths_world (w w' : World) (r : Result (gset Path)) :
  getFormattablePaths w = (r, w') → w' = w.
Proof.
  rewrite getFormattablePaths_run.
  destruct (getGlobsFromFile (ALLOWLISTPATH w) w) as [[allow | e] w1]; [| congruence].
  destruct (getGlobsFromFile (DENYLISTPATH w) w) as [[deny | e] w2]; congruence.
Qed.

Lemma getFormattablePaths_Ok (w w' : World) (paths : gset Path) :
  getFormattablePaths w = (Ok paths, w') →
  w' = w ∧
  ∃ allowlistPaths denylistPaths,
    getGlobsFromFile (ALLOWLISTPATH w) w = (Ok allowlistPaths, w)
    ∧ getGlobsFromFile (DENYLISTPATH w) w = (Ok denylistPaths, w)
    ∧ paths = allowlistPaths ∖ denylistPaths.
Proof.
  rewrite getFormattablePaths_run.
  destruct (getGlobsFromFile (ALLOWLISTPATH w) w) as [[allow | e] w1] eqn:Ha; [| congruence].
  destruct (getGlobsFromFile (DENYLISTPATH w) w) as [[deny | e] w2] eqn:Hd; [| congruence].
  pose proof (getGlobsFromFile_world _ _ _ _ Ha) as ->.
  pose proof (getGlobsFromFile_world _ _ _ _ Hd) as ->.
  intros [= <- <-]. eauto 6.
Qed.

Lemma getFormattablePaths_exist (w w' : World) (paths : gset Path) :
  getFormattablePaths w = (Ok paths, w') → all_exist w' paths.
Proof.
  intros H. apply getFormattablePaths_Ok in H as (-> & allow & deny & Ha & _ & ->).
  apply getGlobsFromFile_Ok in Ha as (_ & Hall & _).
  intros p Hin. apply Hall. apply elem_of_difference in Hin. tauto.
Qed.

(** ** Inversion of successful runs *)

Lemma bind_Ok_inv {A B} (m : M A) (f : A → M B) (w w' : World) (b : B) :
  (m ≫= f) w = (Ok b, w') → ∃ a w1, m w = (Ok a, w1) ∧ f a w1 = (Ok b, w').
Proof.
  rewrite run_bind. destruct (m w) as [[a | e] w1]; [eauto | congruence].
Qed.

Lemma guarded_Ok_inv {A} (body : M A) (msg : string) (w w' : World) (a : A) :
  try_except body (on_CalledProcessError msg) w = (Ok a, w') → body w = (Ok a, w').
Proof.
  unfold try_except. destruct (body w) as [[a' | e] w1]; [congruence |].
  destruct e; unfold on_CalledProcessError, mbind, M_bind, print_stderr, raise;
    congruence.
Qed.

Lemma check_output_Ok_inv (w w' : World) (args : list string) (out : string) :
  check_output args w = (Ok out, w') → w' = w ∧ exits_zero_with w args out.
Proof.
  unfold check_output, exits_zero_with.
  destruct (run w args) as [rc o]. destruct (decide (rc = 0)); [| congruence].
  intros [= <- <-]. subst rc. auto.
Qed.

Lemma decode_Ok_inv (w w' : World) (b s : string) :
  Pathlib.decode b w = (Ok s, w') → w' = w ∧ s = b ∧ Str.utf8_valid b = true.
Proof.
  unfold Pathlib.decode. destruct (Str.utf8_valid b); [| unfold raise; congruence].
  intros [= <- <-]. auto.
Qed.

Lemma getMergeBase_Ok (w w' : World) (start end_ mergeBase : string) :
  getMergeBase start end_ w = (Ok mergeBase, w') →
  w' = w ∧ ∃ out, exits_zero_with w (merge_base_cmd start end_) out
                  ∧ mergeBase = Str.strip out.
Proof.
  intros H. apply guarded_Ok_inv, bind_Ok_inv in H as (out & w1 & Hrun & Hdec).
  apply check_output_Ok_inv in Hrun as [-> Hrun].
  apply decode_Ok_inv in Hdec as (-> & -> & _). eauto.
Qed.

Lemma getChangedFiles_Ok (w w' : World) (fromCommit toCommit : string) (changed : list Path) :
  getChangedFiles fromCommit toCommit w = (Ok changed, w') →
  w' = w ∧ ∃ out, exits_zero_with w (diff_cmd fromCommit toCommit) out
                  ∧ changed = existing w (path_candidates out).
Proof.
  intros H. apply bind_Ok_inv in H as (lines & w1 & Hlines & Hrest).
  apply guarded_Ok_inv, bind_Ok_inv in Hlines as (out & w2 & Hrun & Hk).
  apply check_output_Ok_inv in Hrun as [-> Hrun].
  apply bind_Ok_inv in Hk as (s & w3 & Hdec & Hret).
  apply decode_Ok_inv in Hdec as (-> & -> & _).
  injection Hret as <- <-.
  apply bind_Ok_inv in Hrest as (l & w4 & Hgets & Hret).
  injection Hgets as <- <-. injection Hret as <- <-. eauto.
Qed.

Lemma getAllTrackedFiles_Ok (w w' : World) (tracked : list Path) :
  getAllTrackedFiles w = (Ok tracked, w') →
  w' = w ∧ ∃ out, exits_zero_with w ls_tree_cmd out ∧ tracked = path_candidates out.
Proof.
  intros H. apply bind_Ok_inv in H as (lines & w1 & Hlines & Hret).
  apply guarded_Ok_inv, bind_Ok_inv in Hlines as (out & w2 & Hrun & Hk).
  apply check_output_Ok_inv in Hrun as [-> Hrun].
  apply bind_Ok_inv in Hk as (s & w3 & Hdec & Hret').
  apply decode_Ok_inv in Hdec as (-> & -> & _).
  injection Hret' as <- <-. injection Hret as <- <-. eauto.
Qed.

Lemma elem_of_existing (w : World) (paths : list Path) (p : Path) :
  p ∈ existing w paths ↔ p ∈ paths ∧ Pathlib.path_exists w p.
Proof. unfold existing. rewrite list_elem_of_filter. tauto. Qed.

Lemma getFilesToFormat_Ok (w w' : World) (changedSince : string) (files : gset Path) :
  getFilesToFormat changedSince w = (Ok files, w') →
  w' = w ∧
  ∃ mergeBase changedFiles formattablePaths,
    getMergeBase changedSince "HEAD" w = (Ok mergeBase, w)
    ∧ getChangedFiles mergeBase "HEAD" w = (Ok changedFiles, w)
    ∧ getFormattablePaths w = (Ok formattablePaths, w)
    ∧ files = list_to_set changedFiles ∩ formattablePaths.
Proof.
  intros H. apply bind_Ok_inv in H as (mb & w1 & Hmb & H).
  pose proof (getMergeBase_Ok _ _ _ _ _ Hmb) as [-> _].
  apply bind_Ok_inv in H as (ch & w2 & Hch & H).
  pose proof (getChangedFiles_Ok _ _ _ _ _ Hch) as [-> _].
  apply bind_Ok_inv in H as (fp & w3 & Hfp & H).
  pose proof (getFormattablePaths_world _ _ _ Hfp) as ->.
  injection H as <- <-. eauto 8.
Qed.

Lemma getTrackedFormattablePaths_Ok (w w' : World) (files : gset Path) :
  getTrackedFormattablePaths w = (Ok files, w') →
  w' = w ∧
  ∃ trackedFiles formattablePaths,
    getAllTrackedFiles w = (Ok trackedFiles, w)
    ∧ getFormattablePaths w = (Ok formattablePaths, w)
    ∧ files = list_to_set trackedFiles ∩ formattablePaths.
Proof.
  intros H. apply bind_Ok_inv in H as (tr & w1 & Htr & H).
  pose proof (getAllTrackedFiles_Ok _ _ _ Htr) as [-> _].
  apply bind_Ok_inv in H as (fp & w2 & Hfp & H).
  pose proof (getFormattablePaths_world _ _ _ Hfp) as ->.
  injection H as <- <-. eauto 8.
Qed.

(** ** The file system: resolution and creation *)

Lemma walk_app (fs : FS) (loc : Loc) (a b : list string) :
  Fs.walk fs loc (a ++ b) =
  match Fs.walk fs loc a with
  | inr loc' => Fs.walk fs loc' b
  | inl e => inl e
  end.
Proof.
  revert loc. induction a as [| c a IH]; intros loc; simpl; [reflexivity |].
  destruct (Fs.step fs loc c); [reflexivity | apply IH].
Qed.

Lemma assoc_app_Some (fs extra : FS) (loc : Loc) (n : Node) :
  Fs.assoc fs loc = Some n → Fs.assoc (fs ++ extra) loc = Some n.
Proof.
  induction fs as [| [k m] fs IH]; simpl; [discriminate |].
  destruct (decide (k = loc)); auto.
Qed.

Lemma assoc_app_None (fs extra : FS) (loc : Loc) :
  Fs.assoc fs loc = None → Fs.assoc (fs ++ extra) loc = Fs.assoc extra loc.
Proof.
  induction fs as [| [k m] fs IH]; simpl; [reflexivity |].
  destruct (decide (k = loc)); [discriminate | auto].
Qed.

Lemma node_at_app_Some (fs extra : FS) (loc : Loc) (n : Node) :
  Fs.node_at fs loc = Some n → Fs.node_at (fs ++ extra) loc = Some n.
Proof. destruct loc; simpl; [auto | apply assoc_app_Some]. Qed.

(** Adding nodes does not disturb the resolution of a path. *)
Lemma step_app (fs extra : FS) (loc loc' : Loc) (c : string) :
  Fs.step fs loc c = inr loc' → Fs.step (fs ++ extra) loc c = inr loc'.
Proof.
  unfold Fs.step.
  destruct (Fs.node_at fs loc) as [[content |] |] eqn:Hloc; try discriminate.
  rewrite (node_at_app_Some _ extra _ _ Hloc).
  destruct (decide (c = "" ∨ c = ".")); [auto |].
  destruct (decide (c = "..")); [auto |].
  destruct (Fs.node_at fs (c :: loc)) as [m |] eqn:Hc; [| discriminate].
  now rewrite (node_at_app_Some _ extra _ _ Hc).
Qed.

Lemma walk_app_fs (fs extra : FS) (loc loc' : Loc) (comps : list string) :
  Fs.walk fs loc comps = inr loc' → Fs.walk (fs ++ extra) loc comps = inr loc'.
Proof.
  revert loc. induction comps as [| c comps IH]; intros loc; simpl; [auto |].
  destruct (Fs.step fs loc c) as [e | l] eqn:Hstep; [discriminate |].
  rewrite (step_app _ extra _ _ _ Hstep). apply IH.
Qed.

(** An entry is listed exactly when its node is there. *)
Lemma assoc_children (fs : FS) (loc : Loc) (c : string) :
  is_Some (Fs.assoc fs (c :: loc)) ↔ c ∈ Fs.children fs loc.
Proof.
  unfold Fs.children. induction fs as [| [k m] fs IH]; simpl.
  - split; [intros [? [=]] | intros H; inversion H].
  - destruct (decide (k = c :: loc)) as [-> | Hk]; simpl.
    + rewrite decide_True by reflexivity. split; [intros _; left | eauto].
    + destruct k as [| c' l]; simpl; [exact IH |].
      destruct (decide (l = loc)) as [-> | Hl]; [| exact IH].
      rewrite elem_of_cons, <- IH. split; [auto |].
      intros [-> | H]; [congruence | exact H].
Qed.

Lemma children_app (fs extra : FS) (loc : Loc) :
  Fs.children (fs ++ extra) loc = Fs.children fs loc ++ Fs.children extra loc.
Proof. unfold Fs.children. apply omap_app. Qed.

(** [mkdir] on something that is already there. *)
Lemma Fs_mkdir_existing (fs : FS) (from loc : Loc) (comps : list string) :
  Fs.walk fs from comps = inr loc →
  is_Some (Fs.node_at fs loc) →
  Fs.mkdir fs from comps = inl EEXIST.
Proof.
  intros Hwalk Hnode. unfold Fs.mkdir.
  destruct (rev comps) as [| c rinit] eqn:Hrev; [reflexivity |].
  assert (comps = rev rinit ++ [c]) as ->.
  { rewrite <- (rev_involutive comps), Hrev. reflexivity. }
  rewrite walk_app in Hwalk.
  destruct (Fs.walk fs from (rev rinit)) as [e | l0]; [discriminate |].
  simpl in Hwalk. destruct (Fs.step fs l0 c) as [e | l1] eqn:Hstep; [discriminate |].
  injection Hwalk as ->. unfold Fs.step in Hstep.
  destruct (Fs.node_at fs l0) as [[content |] |]; try discriminate.
  destruct (decide (c = "" ∨ c = ".")) as [Hc | Hc].
  { rewrite decide_True by tauto. reflexivity. }
  destruct (decide (c = "..")) as [Hc' | Hc'].
  { rewrite decide_True by tauto. reflexivity. }
  rewrite decide_False by tauto.
  destruct (Fs.node_at fs (c :: l0)); [reflexivity | discriminate].
Qed.

(** [mkdir] of a new entry in a directory that is there. *)
Lemma Fs_mkdir_fresh (fs : FS) (from loc : Loc) (comps : list string) (c : string) :
  Fs.walk fs from comps = inr loc →
  Fs.node_at fs loc = Some Dir →
  ¬ (c = "" ∨ c = "." ∨ c = "..") →
  c ∉ Fs.children fs loc →
  Fs.mkdir fs from (comps ++ [c]) = inr (fs ++ [(c :: loc, Dir)]).
Proof.
  intros Hwalk Hnode Hplain Hnew. unfold Fs.mkdir.
  rewrite rev_app_distr. simpl. rewrite rev_involutive, Hwalk, Hnode.
  rewrite decide_False by exact Hplain.
  destruct (Fs.assoc fs (c :: loc)) as [n |] eqn:Hc; [| reflexivity].
  exfalso. apply Hnew, assoc_children. eauto.
Qed.

(** ** Directories through [pathlib] *)

Lemma listdir_inv (w : World) (p : Path) (names : list string) :
  Pathlib.listdir w p = inr names →
  ∃ loc, locate w p = inr loc ∧ Fs.node_at (fs w) loc = Some Dir
         ∧ names = Fs.children (fs w) loc.
Proof.
  unfold Pathlib.listdir, locate.
  destruct (Fs.walk (fs w) (Pathlib.from w p) (tail p)) as [e | loc]; [discriminate |].
  destruct (Fs.node_at (fs w) loc) as [[content |] |] eqn:Hnode; try discriminate.
  intros [= <-]. exists loc. auto.
Qed.

Lemma is_dir_located (w : World) (p : Path) (loc : Loc) :
  locate w p = inr loc → Fs.node_at (fs w) loc = Some Dir →
  Pathlib.is_dir w p = true.
Proof.
  unfold locate, Pathlib.is_dir, Pathlib.stat, Fs.stat. now intros -> ->.
Qed.

Lemma mkdir_parents_unfold (r : string) (rparts : list string) (exist_ok : bool) (w : World) :
  Pathlib.mkdir_parents r rparts exist_ok w =
  let p := MkPath r (rev rparts) in
  match Fs.mkdir (fs w) (Pathlib.from w p) (tail p) with
  | inr fs' => (Ok tt, set_fs w fs')
  | inl ENOENT =>
      match rparts with
      | [] => Pathlib.os_error ENOENT p w
      | _ :: rparent =>
          (Pathlib.mkdir_parents r rparent true ;; Pathlib.mkdir_flat p exist_ok) w
      end
  | inl e =>
      if negb exist_ok || negb (Pathlib.is_dir w p) then Pathlib.os_error e p w
      else (Ok tt, w)
  end.
Proof. destruct rparts; reflexivity. Qed.

(** [mkdir(parents=True, exist_ok=True)] leaves a directory that is
    already there, and the whole world, as it is. *)
Lemma mkdir_existing (w : World) (p : Path) (names : list string) :
  Pathlib.listdir w p = inr names →
  Pathlib.mkdir p true true w = (Ok tt, w).
Proof.
  intros H. apply listdir_inv in H as (loc & Hloc & Hnode & _).
  unfold Pathlib.mkdir. rewrite mkdir_parents_unfold, rev_involutive.
  destruct p as [r t]. simpl.
  unfold locate in Hloc. simpl in Hloc.
  rewrite (Fs_mkdir_existing _ _ loc _ Hloc) by (rewrite Hnode; eauto).
  rewrite (is_dir_located w (MkPath r t) loc Hloc Hnode). reflexivity.
Qed.

Lemma from_child (w : World) (p : Path) (c : string) :
  Pathlib.from w (PurePath.child p c) = Pathlib.from w p.
Proof. reflexivity. Qed.

(** [mkdir()] of a new entry [c] of the directory [p]. *)
Lemma mkdir_new_child (w : World) (p : Path) (loc : Loc) (c : string) :
  locate w p = inr loc →
  Fs.node_at (fs w) loc = Some Dir →
  plain c →
  c ∉ Fs.children (fs w) loc →
  Pathlib.mkdir (PurePath.child p c) false false w
  = (Ok tt, set_fs w (fs w ++ [(c :: loc, Dir)])).
Proof.
  intros Hloc Hnode Hplain Hnew.
  unfold Pathlib.mkdir, Pathlib.mkdir_flat. rewrite from_child.
  cbn [PurePath.child tail]. unfold locate in Hloc.
  now rewrite (Fs_mkdir_fresh _ _ loc _ c Hloc Hnode Hplain Hnew).
Qed.

(** After it, the new entry is a directory and is listed last. *)
Lemma new_child_is_dir (w : World) (p : Path) (loc : Loc) (c : string) :
  locate w p = inr loc →
  Fs.node_at (fs w) loc = Some Dir →
  plain c →
  c ∉ Fs.children (fs w) loc →
  let w' := set_fs w (fs w ++ [(c :: loc, Dir)]) in
  Pathlib.is_dir w' (PurePath.child p c) = true
  ∧ Pathlib.listdir w' p = inr (Fs.children (fs w) loc ++ [c]).
Proof.
  intros Hloc Hnode Hplain Hnew w'. unfold locate in Hloc.
  assert (Hloc' : locate w' p = inr loc).
  { unfold locate, w'. simpl. now apply walk_app_fs. }
  assert (Hnode' : Fs.node_at (fs w') loc = Some Dir).
  { unfold w'. simpl. now apply node_at_app_Some. }
  assert (Hc : Fs.node_at (fs w') (c :: loc) = Some Dir).
  { unfold w'. simpl. rewrite assoc_app_None.
    - simpl. now rewrite decide_True.
    - destruct (Fs.assoc (fs w) (c :: loc)) eqn:E; [| reflexivity].
      exfalso. apply Hnew, assoc_children. eauto. }
  split.
  - apply (is_dir_located w' _ (c :: loc)); [| exact Hc].
    unfold locate in *. rewrite from_child. cbn [PurePath.child tail].
    rewrite walk_app, Hloc'. cbn [Fs.walk].
    unfold Fs.step. rewrite Hnode'.
    unfold plain in Hplain.
    rewrite decide_False by tauto. rewrite decide_False by tauto.
    now rewrite Hc.
  - unfold Pathlib.listdir. unfold locate in Hloc'. rewrite Hloc', Hnode'.
    unfold w'. simpl. rewrite children_app. simpl.
    rewrite decide_True by reflexivity. reflexivity.
Qed.

(** ** Decimal numerals *)

Lemma scan_digit (c : ascii) (s : string) (prev : ascii) (acc k : Z) (n : nat) :
  PyInt.digit_val c = Some k →
  Ascii.eqb c PyInt.underscore = false →
  PyInt.scan (String c s) prev acc n = PyInt.scan s c (10 * acc + k) (S n).
Proof. intros Hd Hu. cbn [PyInt.scan]. now rewrite Hu, Hd. Qed.

Ltac scan_uint_case IH k d' :=
  rewrite (scan_digit _ _ _ _ k) by reflexivity;
  rewrite (IH _ _ _ d');
  [ do 3 f_equal; lia | reflexivity | cbn [Unsigned.of_lu]; lia ].

Lemma scan_uint (d : Decimal.uint) (prev : ascii) (acc : Z) (n : nat) (d' : Decimal.uint) :
  Ascii.eqb prev PyInt.underscore = false →
  Z.of_N (Unsigned.of_lu d') = acc →
  PyInt.scan (NilEmpty.string_of_uint d) prev acc n
  = Some (Z.of_N (Unsigned.of_lu (Decimal.revapp d d')), (n + Decimal.nb_digits d)%nat, "").
Proof.
  revert prev acc n d'.
  induction d as [| d IH | d IH | d IH | d IH | d IH | d IH | d IH | d IH | d IH | d IH];
    intros prev acc n d' Hprev Hacc; cbn [NilEmpty.string_of_uint Decimal.revapp Decimal.nb_digits].
  - cbn [PyInt.scan]. rewrite Hprev, Nat.add_0_r. now subst acc.
  - scan_uint_case IH 0 (Decimal.D0 d').
  - scan_uint_case IH 1 (Decimal.D1 d').
  - scan_uint_case IH 2 (Decimal.D2 d').
  - scan_uint_case IH 3 (Decimal.D3 d').
  - scan_uint_case IH 4 (Decimal.D4 d').
  - scan_uint_case IH 5 (Decimal.D5 d').
  - scan_uint_case IH 6 (Decimal.D6 d').
  - scan_uint_case IH 7 (Decimal.D7 d').
  - scan_uint_case IH 8 (Decimal.D8 d').
  - scan_uint_case IH 9 (Decimal.D9 d').
Qed.

(** The digits of a numeral, read back, give the number. *)
Lemma scan_numeral (d : Decimal.uint) :
  PyInt.scan (NilEmpty.string_of_uint d) "000"%char 0 0
  = Some (Z.of_N (Pos.of_uint d), Decimal.nb_digits d, "").
Proof.
  rewrite (scan_uint d _ 0 0%nat Decimal.Nil) by reflexivity.
  now rewrite Unsigned.of_uint_alt.
Qed.

Ltac numeral_case d :=
  cbn [NilEmpty.string_of_uint Str.lstrip]; simpl Str.is_space; cbn iota;
  simpl PyInt.sign_of; cbv iota;
  match goal with
  | |- context [PyInt.scan (String ?c (NilEmpty.string_of_uint d)) _ _ _] =>
      match goal with
      | |- context [Pos.of_uint ?dd] =>
          change (String c (NilEmpty.string_of_uint d)) with (NilEmpty.string_of_uint dd)
      end
  end;
  rewrite scan_numeral; cbn [Decimal.nb_digits Nat.eqb Str.lstrip Str.is_empty];
  split; f_equal; lia.

Lemma of_ascii_string_uint (d : Decimal.uint) :
  d ≠ Decimal.Nil →
  PyInt.of_ascii_string (NilEmpty.string_of_uint d) = Some (Z.of_N (Pos.of_uint d))
  ∧ PyInt.of_ascii_string (String "-" (NilEmpty.string_of_uint d))
    = Some (- Z.of_N (Pos.of_uint d)).
Proof.
  intros Hd. unfold PyInt.of_ascii_string.
  destruct d; try congruence; numeral_case d.
Qed.

(** [int(str(z)) == z] *)
Lemma int_of_to_string (z : Z) : PyInt.of_ascii_string (PyInt.to_string z) = Some z.
Proof.
  unfold PyInt.to_string. destruct z as [| p | p]; [reflexivity | |];
    cbn [Z.to_int NilZero.string_of_int]; unfold NilZero.string_of_uint;
    pose proof (Unsigned.to_uint_nonnil p) as Hnil;
    pose proof (of_ascii_string_uint (Pos.to_uint p) Hnil) as [Hpos Hneg];
    rewrite Unsigned.of_to in Hpos, Hneg;
    destruct (Pos.to_uint p); try congruence; assumption.
Qed.

Lemma uint_numeral_chars (d : Decimal.uint) :
  Str.all_chars numeral_char (NilEmpty.string_of_uint d) = true.
Proof. induction d; simpl; auto. Qed.

Lemma to_string_numeral_chars (z : Z) :
  Str.all_chars numeral_char (PyInt.to_string z) = true
  ∧ ∃ c s, PyInt.to_string z = String c s.
Proof.
  unfold PyInt.to_string. destruct z as [| p | p]; [simpl; eauto | |];
    cbn [Z.to_int NilZero.string_of_int]; unfold NilZero.string_of_uint;
    pose proof (Unsigned.to_uint_nonnil p) as Hnil;
    pose proof (uint_numeral_chars (Pos.to_uint p)) as Hchars;
    destruct (Pos.to_uint p); try congruence; simpl in *; eauto.
Qed.

Lemma all_chars_impl (P Q : ascii → bool) (s : string) :
  (∀ c, P c = true → Q c = true) →
  Str.all_chars P s = true → Str.all_chars Q s = true.
Proof.
  intros HPQ. induction s as [| c s IH]; simpl; [auto |].
  rewrite !andb_true_iff. intros [Hc Hs]. auto.
Qed.

Lemma numeral_char_ascii (c : ascii) :
  numeral_char c = true → Str.in_range 0 127 c = true.
Proof.
  destruct c as [[|] [|] [|] [|] [|] [|] [|] [|]]; vm_compute; congruence.
Qed.

Lemma numeral_char_not_slash (c : ascii) :
  numeral_char c = true → Ascii.eqb c Str.slash = false.
Proof.
  intros H. destruct (Ascii.eqb_spec c Str.slash) as [-> |]; [discriminate | reflexivity].
Qed.

Lemma to_string_ascii (z : Z) : Str.is_ascii (PyInt.to_string z) = true.
Proof.
  apply (all_chars_impl numeral_char); [apply numeral_char_ascii |].
  apply to_string_numeral_chars.
Qed.

Lemma py_int_to_string (w : World) (z : Z) : py_int w (PyInt.to_string z) = Some z.
Proof. unfold py_int. now rewrite to_string_ascii, int_of_to_string. Qed.

(** A string without a slash is one component. *)
Lemma split_no_slash (s : string) :
  Str.all_chars (λ c, negb (Ascii.eqb c Str.slash)) s = true →
  Str.split Str.slash s = [s].
Proof.
  induction s as [| c s IH]; simpl; [reflexivity |].
  rewrite andb_true_iff, negb_true_iff. intros [-> Hs]. now rewrite (IH Hs).
Qed.

Lemma joinpath_numeral (p : Path) (z : Z) :
  p // PyInt.to_string z = PurePath.child p (PyInt.to_string z)
  ∧ plain (PyInt.to_string z).
Proof.
  destruct (to_string_numeral_chars z) as (Hchars & c & s & Hs).
  assert (Hsplit : Str.split Str.slash (PyInt.to_string z) = [PyInt.to_string z]).
  { apply split_no_slash. revert Hchars. apply all_chars_impl.
    intros c' Hc'. now rewrite (numeral_char_not_slash c' Hc'). }
  rewrite Hs in *. simpl in Hchars. apply andb_true_iff in Hchars as [Hc Hrest].
  assert (Hdot : c ≠ "."%char) by (intros ->; discriminate).
  assert (Hslash : c ≠ "/"%char) by (intros ->; discriminate).
  split.
  - unfold PurePath.joinpath, PurePath.of_string. rewrite Hsplit.
    assert (Hroot : PurePath.root_of (String c s) = "").
    { unfold PurePath.root_of.
      destruct c as [[|] [|] [|] [|] [|] [|] [|] [|]]; try reflexivity; congruence. }
    rewrite Hroot. cbn [filter list_filter].
    assert (Hkeep : PurePath.keep_part (String c s) = true).
    { unfold PurePath.keep_part. simpl.
      destruct (Ascii.eqb_spec c "."); [congruence | reflexivity]. }
    rewrite decide_True by (rewrite Hkeep; exact I). reflexivity.
  - unfold plain. intros [H | [H | H]]; congruence.
Qed.

(** ** The directory scan of [createTmpDir] *)

Lemma name_child (p : Path) (c : string) : PurePath.name (PurePath.child p c) = c.
Proof. unfold PurePath.name, PurePath.child. simpl. apply last_last. Qed.

Lemma int_run (w : World) (s : string) :
  int s w = match py_int w s with
            | Some z => (Ok z, w)
            | None => (Raise (ValueError s), w)
            end.
Proof. reflexivity. Qed.

Lemma createTmpDir_loop_numbered (w : World) (userTmpDir : Path)
    (names : list string) (ints subdirs : list Z) :
  numbered w names ints →
  createTmpDir_loop userTmpDir (map (PurePath.child userTmpDir) names) subdirs w
  = (Ok (subdirs ++ ints), w).
Proof.
  intros H. revert subdirs.
  induction H as [| name z names ints Hz _ IH]; intros subdirs; simpl.
  - now rewrite app_nil_r.
  - rewrite run_bind. unfold try_except. rewrite name_child, int_run, Hz.
    rewrite IH, <- app_assoc. reflexivity.
Qed.

Lemma createTmpDir_loop_invalid (w : World) (userTmpDir : Path)
    (good rest : list string) (bad : string) (ints subdirs : list Z) :
  numbered w good ints →
  py_int w bad = None →
  createTmpDir_loop userTmpDir
    (map (PurePath.child userTmpDir) (good ++ bad :: rest)) subdirs w
  = (Raise (ValueError bad),
     add_stderr w (unexpected_subdir_message w (PurePath.child userTmpDir bad) userTmpDir)).
Proof.
  intros H Hbad. revert subdirs.
  induction H as [| name z names ints Hz _ IH]; intros subdirs; simpl.
  - rewrite run_bind. unfold try_except. rewrite name_child, int_run, Hbad.
    reflexivity.
  - rewrite run_bind. unfold try_except. rewrite name_child, int_run, Hz.
    apply IH.
Qed.

(** A listing with an entry that does not parse has a first such entry. *)
Lemma first_invalid (w : World) (names : list string) :
  (∃ name, name ∈ names ∧ py_int w name = None) →
  ∃ good bad rest ints,
    names = good ++ bad :: rest ∧ numbered w good ints ∧ py_int w bad = None.
Proof.
  induction names as [| name names IH]; intros (x & Hin & Hx).
  - inversion Hin.
  - destruct (py_int w name) as [z |] eqn:Hname.
    + assert (Hex : ∃ y, y ∈ names ∧ py_int w y = None).
      { apply elem_of_cons in Hin as [-> | Hin]; [congruence | eauto]. }
      destruct (IH Hex) as (good & bad & rest & ints & -> & Hgood & Hbad).
      exists (name :: good), bad, rest, (z :: ints).
      split; [reflexivity |]. split; [constructor; assumption | assumption].
    + exists [], name, names, []. split; [reflexivity |].
      split; [constructor | assumption].
Qed.

(** ** The maximum *)

Lemma max_list_ge (xs : list Z) (x : Z) :
  x ≤ max_list x xs ∧ ∀ z, z ∈ xs → z ≤ max_list x xs.
Proof.
  unfold max_list. revert x. induction xs as [| y xs IH]; intros x; simpl.
  - split; [lia | intros z Hz; inversion Hz].
  - destruct (IH (Z.max x y)) as [H1 H2]. split; [lia |].
    intros z Hz. apply elem_of_cons in Hz as [-> | Hz]; [lia | auto].
Qed.

Lemma max_list_elem (xs : list Z) (x : Z) : max_list x xs ∈ x :: xs.
Proof.
  unfold max_list. revert x. induction xs as [| y xs IH]; intros x; simpl.
  - left.
  - specialize (IH (Z.max x y)). apply elem_of_cons in IH as [-> | IH].
    + destruct (Z.max_spec x y) as [[_ ->] | [_ ->]]; [right; left | left].
    + right; right; exact IH.
Qed.

(** The next revision is above every number found ... *)
Lemma next_revision_above (ints : list Z) (z : Z) :
  z ∈ ints → z < next_revision ints.
Proof.
  destruct ints as [| x xs]; [intros H; inversion H |].
  intros Hz. simpl. destruct (max_list_ge xs x) as [H1 H2].
  apply elem_of_cons in Hz as [-> | Hz]; [lia |]. specialize (H2 z Hz). lia.
Qed.

(** ... and just above one of them. *)
Lemma next_revision_pred (ints : list Z) :
  ints ≠ [] → next_revision ints - 1 ∈ ints.
Proof.
  destruct ints as [| x xs]; [congruence |]. intros _. simpl.
  replace (max_list x xs + 1 - 1) with (max_list x xs) by lia.
  apply max_list_elem.
Qed.

Lemma next_revision_unique (ints : list Z) (r : Z) :
  (∀ z, z ∈ ints → z < r) → r - 1 ∈ ints → next_revision ints = r.
Proof.
  intros Habove Hpred.
  assert (Hne : ints ≠ []) by (intros ->; inversion Hpred).
  pose proof (next_revision_pred ints Hne) as H1.
  pose proof (next_revision_above ints _ Hpred) as H2.
  specialize (Habove _ H1). lia.
Qed.

(** ** [createTmpDir] *)

Lemma iterdir_run (w : World) (p : Path) (names : list string) :
  Pathlib.listdir w p = inr names →
  Pathlib.iterdir p w = (Ok (map (PurePath.child p) names), w).
Proof. intros H. unfold Pathlib.iterdir. now rewrite H. Qed.

(** The numeral of the next revision is not among the entries. *)
Lemma next_revision_fresh (w : World) (names : list string) (ints : list Z) :
  numbered w names ints →
  PyInt.to_string (next_revision ints) ∉ names.
Proof.
  intros Hnum Hin.
  apply list_elem_of_lookup in Hin as [i Hi].
  destruct (Forall2_lookup_l _ _ _ _ _ Hnum Hi) as (z & Hz & Hparse).
  rewrite py_int_to_string in Hparse. injection Hparse as <-.
  apply list_elem_of_lookup_2 in Hz. apply next_revision_above in Hz. lia.
Qed.

(** Once the per-user directory is there and every entry is numbered, the
    call succeeds: it makes, and returns, the entry numbered
    [next_revision]. *)
Lemma createTmpDir_numbered (w w1 : World) (baseDir : Path)
    (names : list string) (ints : list Z) :
  Pathlib.mkdir (baseDir // user w) true true w = (Ok tt, w1) →
  Pathlib.listdir w1 (baseDir // user w) = inr names →
  numbered w1 names ints →
  ∃ w2,
    createTmpDir baseDir w
    = (Ok (baseDir // user w // PyInt.to_string (next_revision ints)), w2)
    ∧ Pathlib.is_dir w2 (baseDir // user w // PyInt.to_string (next_revision ints)) = true
    ∧ Pathlib.listdir w2 (baseDir // user w)
      = inr (names ++ [PyInt.to_string (next_revision ints)])
    ∧ stderr w2 = stderr w1.
Proof.
  intros Hmk Hls Hnum.
  destruct (joinpath_numeral (baseDir // user w) (next_revision ints)) as [Hjoin Hplain].
  pose proof (next_revision_fresh _ _ _ Hnum) as Hfresh.
  destruct (listdir_inv _ _ _ Hls) as (loc & Hloc & Hnode & Hnames).
  rewrite Hnames in Hfresh.
  exists (set_fs w1 (fs w1 ++ [(PyInt.to_string (next_revision ints) :: loc, Dir)])).
  destruct (new_child_is_dir w1 _ loc _ Hloc Hnode Hplain Hfresh) as [Hdir Hls'].
  rewrite Hjoin. repeat split.
  - unfold createTmpDir. rewrite run_bind. unfold gets.
    rewrite (bind_Ok _ _ _ _ _ Hmk).
    rewrite (bind_Ok _ _ _ _ _ (iterdir_run _ _ _ Hls)).
    rewrite (bind_Ok _ _ _ _ _ (createTmpDir_loop_numbered _ _ _ _ [] Hnum)).
    cbn [app]. fold (next_revision ints). rewrite Hjoin.
    rewrite (bind_Ok _ _ _ _ _ (mkdir_new_child _ _ loc _ Hloc Hnode Hplain Hfresh)).
    reflexivity.
  - exact Hdir.
  - rewrite Hls', Hnames. reflexivity.
Qed.

(** With an entry that does not parse, the call stops at the first such
    entry. *)
Lemma createTmpDir_invalid (w : World) (baseDir : Path)
    (good rest : list string) (bad : string) (ints : list Z) :
  Pathlib.listdir w (baseDir // user w) = inr (good ++ bad :: rest) →
  numbered w good ints →
  py_int w bad = None →
  createTmpDir baseDir w
  = (Raise (ValueError bad),
     add_stderr w (unexpected_subdir_message w
                     (PurePath.child (baseDir // user w) bad) (baseDir // user w))).
Proof.
  intros Hls Hgood Hbad.
  unfold createTmpDir. rewrite run_bind. unfold gets.
  rewrite (bind_Ok _ _ _ _ _ (mkdir_existing _ _ _ Hls)).
  rewrite (bind_Ok _ _ _ _ _ (iterdir_run _ _ _ Hls)).
  now rewrite (bind_Raise _ _ _ _ _ (createTmpDir_loop_invalid _ _ _ _ _ _ [] Hgood Hbad)).
Qed.

(** ** The lines of an output *)

Lemma append_cons (c : ascii) (s t : string) : String c s +:+ t = String c (s +:+ t).
Proof. reflexivity. Qed.

Lemma append_assoc (a b c : string) : (a +:+ b) +:+ c = a +:+ (b +:+ c).
Proof.
  induction a as [| x a IH]; [reflexivity |]. rewrite !append_cons. now rewrite IH.
Qed.

Lemma rstrip_blank (s : string) :
  Str.all_chars Str.is_space s = true → Str.rstrip s = "".
Proof.
  induction s as [| c s IH]; [reflexivity |].
  cbn [Str.all_chars Str.rstrip]. rewrite andb_true_iff. intros [Hc Hs].
  now rewrite Hc, (IH Hs).
Qed.















(** The limits, checked by computation. *)
Lemma within_limits_check (p : Path) :
  forallb (λ c, String.length c <=? NAME_MAX)%nat (tail p)
  && (String.length (PurePath.to_string p) <? PATH_MAX)%nat = true →
  within_limits p.
Proof.
  rewrite andb_true_iff, forallb_forall. intros [Hname Hpath]. split.
  - apply Forall_forall. intros c Hin. apply Nat.leb_le, Hname.
    now apply list_elem_of_In.
  - now apply Nat.ltb_lt.
Qed.

(** * The claims *)

(** C1.  Whenever the merge-base and the diff succeed, [getFilesToFormat]
    returns exactly the intersection of the set of the changed files with
    the formattable set (and fails as [getFormattablePaths] fails, when that
    fails): a path is in the result if and only if it is a changed file and
    a formattable path. *)
Theorem getFilesToFormat_intersection (w w1 w2 : World)
    (changedSince mergeBase : string) (changedFiles : list Path) :
  getMergeBase changedSince "HEAD" w = (Ok mergeBase, w1) →
  getChangedFiles mergeBase "HEAD" w1 = (Ok changedFiles, w2) →
  getFilesToFormat changedSince w
  = match getFormattablePaths w2 with
    | (Ok formattablePaths, w3) =>
        (Ok (list_to_set changedFiles ∩ formattablePaths), w3)
    | (Raise e, w3) => (Raise e, w3)
    end
  ∧ ∀ (formattablePaths : gset Path) (p : Path),
      p ∈ (list_to_set changedFiles ∩ formattablePaths : gset Path)
      ↔ p ∈ changedFiles ∧ p ∈ formattablePaths.
Proof.
  intros Hmb Hch. split.
  - unfold getFilesToFormat.
    rewrite (bind_Ok _ _ _ _ _ Hmb), (bind_Ok _ _ _ _ _ Hch), run_bind.
    destruct (getFormattablePaths w2) as [[fp | e] w3]; reflexivity.
  - intros fp p. rewrite elem_of_intersection, elem_of_list_to_set. tauto.
Qed.

(** C2.  When both glob lists resolve, [getFormattablePaths] returns the
    expansion of the allowlist minus the expansion of the denylist: no path
    of the denylist's expansion is in the result, whether or not the
    allowlist's expansion has it. *)
Theorem getFormattablePaths_difference (w : World) (allowText denyText : string) :
  Pathlib.read_text (ALLOWLISTPATH w) w = (Ok allowText, w) →
  Pathlib.read_text (DENYLISTPATH w) w = (Ok denyText, w) →
  all_exist w (glob_union w (Str.split Str.LF allowText)) →
  all_exist w (glob_union w (Str.split Str.LF denyText)) →
  getFormattablePaths w
  = (Ok (glob_union w (Str.split Str.LF allowText)
         ∖ glob_union w (Str.split Str.LF denyText)), w)
  ∧ ∀ p : Path,
      (p ∈ glob_union w (Str.split Str.LF denyText) →
       p ∉ glob_union w (Str.split Str.LF allowText)
           ∖ glob_union w (Str.split Str.LF denyText))
      ∧ (p ∈ glob_union w (Str.split Str.LF allowText)
             ∖ glob_union w (Str.split Str.LF denyText)
         ↔ p ∈ glob_union w (Str.split Str.LF allowText)
           ∧ p ∉ glob_union w (Str.split Str.LF denyText)).
Proof.
  intros Hallow Hdeny Hae Hde. split.
  - rewrite getFormattablePaths_run.
    rewrite (getGlobsFromFile_resolved _ _ _ Hallow Hae).
    rewrite (getGlobsFromFile_resolved _ _ _ Hdeny Hde). reflexivity.
  - intros p. rewrite elem_of_difference. tauto.
Qed.

(** C3.  For a glob-list file that can be read, and whose matches are all
    on disk, [getGlobsFromFile] returns the union of the expansions of its
    lines, as a set: a path is in the result if and only if some line's
    expansion has it.  The empty line expands to nothing, and a line that
    expands to nothing contributes nothing. *)
Theorem getGlobsFromFile_union (w : World) (globlistFile : Path) (text : string) :
  Pathlib.read_text globlistFile w = (Ok text, w) →
  all_exist w (glob_union w (Str.split Str.LF text)) →
  getGlobsFromFile globlistFile w = (Ok (glob_union w (Str.split Str.LF text)), w)
  ∧ (∀ p : Path,
       p ∈ glob_union w (Str.split Str.LF text)
       ↔ ∃ line, line ∈ Str.split Str.LF text
                 ∧ p ∈ map PurePath.of_string (Os.glob w line))
  ∧ Os.glob w "" = []
  ∧ (∀ (before after : list string) (line : string),
       Os.glob w line = [] →
       glob_union w (before ++ line :: after) = glob_union w (before ++ after)).
Proof.
  intros Hread Hall. split; [| split; [| split]].
  - apply getGlobsFromFile_resolved; assumption.
  - intros p. apply elem_of_glob_union.
  - apply glob_empty_pattern.
  - intros before after line Hline.
    rewrite !glob_union_app, glob_union_cons, Hline. simpl.
    now rewrite (left_id_L ∅ (∪)).
Qed.

(** C7.  A version-control command that exits with a non-zero status
    surfaces from every operation that runs it as the [CalledProcessError]
    of that command, and no result is returned: from [getMergeBase],
    [getChangedFiles] and [getAllTrackedFiles], and through them from
    [getFilesToFormat] (for the merge-base, and for the diff after a
    merge-base that succeeded) and [getTrackedFormattablePaths]. *)
Theorem command_failure_propagates (w : World) :
  (∀ start end_,
     exits_nonzero w (merge_base_cmd start end_) →
     getMergeBase start end_ w
     = (Raise (command_failure w (merge_base_cmd start end_)),
        add_stderr w "Error occurred while getting merge base of commits."))
  ∧ (∀ fromCommit toCommit,
       exits_nonzero w (diff_cmd fromCommit toCommit) →
       getChangedFiles fromCommit toCommit w
       = (Raise (command_failure w (diff_cmd fromCommit toCommit)),
          add_stderr w "Error occurred while getting changed files."))
  ∧ (exits_nonzero w ls_tree_cmd →
     getAllTrackedFiles w
     = (Raise (command_failure w ls_tree_cmd),
        add_stderr w "Error occurred while getting tracked files."))
  ∧ (∀ changedSince,
       exits_nonzero w (merge_base_cmd changedSince "HEAD") →
       getFilesToFormat changedSince w
       = (Raise (command_failure w (merge_base_cmd changedSince "HEAD")),
          add_stderr w "Error occurred while getting merge base of commits."))
  ∧ (∀ changedSince mergeBase,
       getMergeBase changedSince "HEAD" w = (Ok mergeBase, w) →
       exits_nonzero w (diff_cmd mergeBase "HEAD") →
       getFilesToFormat changedSince w
       = (Raise (command_failure w (diff_cmd mergeBase "HEAD")),
          add_stderr w "Error occurred while getting changed files."))
  ∧ (exits_nonzero w ls_tree_cmd →
     getTrackedFormattablePaths w
     = (Raise (command_failure w ls_tree_cmd),
        add_stderr w "Error occurred while getting tracked files.")).
Proof.
  repeat split.
  - intros start end_. apply getMergeBase_failure.
  - intros fromCommit toCommit. apply getChangedFiles_failure.
  - apply getAllTrackedFiles_failure.
  - intros changedSince H. unfold getFilesToFormat.
    apply bind_Raise, getMergeBase_failure, H.
  - intros changedSince mergeBase Hmb H. unfold getFilesToFormat.
    rewrite (bind_Ok _ _ _ _ _ Hmb).
    apply bind_Raise, getChangedFiles_failure, H.
  - intros H. unfold getTrackedFormattablePaths.
    apply bind_Raise, getAllTrackedFiles_failure, H.
Qed.

(** C8, as amended.  Every path returned by glob resolution, by the
    formattable-set resolution, by the changed-file listing and by the two
    composed selection queries exists on disk when the operation returns
    (and the operation has left the world as it found it).  The tracked-file
    listing is not in the list: it applies no existence filter. *)
Theorem resolved_paths_exist (w w' : World) :
  (∀ globlistFile paths,
     getGlobsFromFile globlistFile w = (Ok paths, w') →
     w' = w ∧ all_exist w' paths)
  ∧ (∀ paths,
       getFormattablePaths w = (Ok paths, w') → w' = w ∧ all_exist w' paths)
  ∧ (∀ fromCommit toCommit changed,
       getChangedFiles fromCommit toCommit w = (Ok changed, w') →
       w' = w ∧ ∀ p, p ∈ changed → Pathlib.path_exists w' p)
  ∧ (∀ changedSince files,
       getFilesToFormat changedSince w = (Ok files, w') →
       w' = w ∧ all_exist w' files)
  ∧ (∀ files,
       getTrackedFormattablePaths w = (Ok files, w') →
       w' = w ∧ all_exist w' files).
Proof.
  repeat split.
  - now apply getGlobsFromFile_Ok in H.
  - apply getGlobsFromFile_Ok in H as (-> & Hall & _). exact Hall.
  - now apply getFormattablePaths_world in H.
  - now apply getFormattablePaths_exist in H.
  - now apply getChangedFiles_Ok in H.
  - apply getChangedFiles_Ok in H as (-> & out & _ & ->).
    intros p Hp. now apply elem_of_existing in Hp.
  - now apply getFilesToFormat_Ok in H.
  - apply getFilesToFormat_Ok in H as (-> & mb & ch & fp & _ & _ & Hfp & ->).
    apply getFormattablePaths_exist in Hfp.
    intros p Hp. apply Hfp. apply elem_of_intersection in Hp. tauto.
  - now apply getTrackedFormattablePaths_Ok in H.
  - apply getTrackedFormattablePaths_Ok in H as (-> & tr & fp & _ & Hfp & ->).
    apply getFormattablePaths_exist in Hfp.
    intros p Hp. apply Hfp. apply elem_of_intersection in Hp. tauto.
Qed.


(** C10.  When a command prints nothing, the only line of its stripped
    output is the empty string, whose path is the current directory.  So,
    each on its own: [getAllTrackedFiles] returns the one-element list of
    that path when the listing is empty, and [getChangedFiles] returns it
    when the diff is empty, the current directory being there (whatever is
    tracked), rather than the empty list. *)
Theorem empty_output_current_directory (w : World) :
  (exits_zero_with w ls_tree_cmd "" →
   getAllTrackedFiles w = (Ok [PurePath.of_string ""], w))
  ∧ (∀ fromCommit toCommit,
       exits_zero_with w (diff_cmd fromCommit toCommit) "" →
       is_Some (Fs.node_at (fs w) (cwd w)) →
       getChangedFiles fromCommit toCommit w = (Ok [PurePath.of_string ""], w))
  ∧ PurePath.to_string (PurePath.of_string "") = "."
  ∧ Str.split Str.LF (Str.strip "") = [""].
Proof.
  split; [| split; [| split; reflexivity]].
  - intros Hls. now rewrite (getAllTrackedFiles_success w "" Hls).
  - intros fromCommit toCommit Hdiff [n Hcwd].
    rewrite (getChangedFiles_success w _ _ "" Hdiff) by reflexivity.
    unfold existing, path_candidates.
    change (Str.split Str.LF (Str.strip "")) with [""]. cbn [map].
    assert (Hex : Pathlib.path_exists w (PurePath.of_string "") = true).
    { change (Pathlib.path_exists w (PurePath.of_string ""))
        with (match (match Fs.node_at (fs w) (cwd w) with
                     | Some n => inr n
                     | None => inl ENOENT
                     end : Errno + Node) with
              | inr _ => true
              | inl _ => false
              end).
      now rewrite Hcwd. }
    rewrite filter_cons_True by (rewrite Hex; exact I). reflexivity.
Qed.

(** C4.  Once the per-user directory is ensured: with no entries,
    [createTmpDir] makes and returns directory [0]; with exactly the
    entries [0], [1] and [3], it makes and returns directory [4]; and
    whatever the numbered entries, the revision it makes is above every
    number found and one more than one of them (the maximum plus one), so
    that a gap is never filled. *)
Theorem createTmpDir_next_revision (w w1 : World) (baseDir : Path)
    (names : list string) :
  Pathlib.mkdir (baseDir // user w) true true w = (Ok tt, w1) →
  Pathlib.listdir w1 (baseDir // user w) = inr names →
  (names = [] →
   ∃ w2, createTmpDir baseDir w = (Ok (baseDir // user w // "0"), w2)
         ∧ Pathlib.is_dir w2 (baseDir // user w // "0") = true)
  ∧ ((∀ name, name ∈ names ↔ name ∈ ["0"; "1"; "3"]) →
     ∃ w2, createTmpDir baseDir w = (Ok (baseDir // user w // "4"), w2)
           ∧ Pathlib.is_dir w2 (baseDir // user w // "4") = true)
  ∧ (∀ ints,
       numbered w1 names ints →
       (∃ w2,
          createTmpDir baseDir w
          = (Ok (baseDir // user w // PyInt.to_string (next_revision ints)), w2)
          ∧ Pathlib.is_dir w2 (baseDir // user w // PyInt.to_string (next_revision ints)) = true
          ∧ Pathlib.listdir w2 (baseDir // user w)
            = inr (names ++ [PyInt.to_string (next_revision ints)]))
       ∧ (∀ z, z ∈ ints → z < next_revision ints)
       ∧ (ints ≠ [] → next_revision ints - 1 ∈ ints)
       ∧ (ints = [] → next_revision ints = 0)).
Proof.
  intros Hmk Hls. split; [| split].
  - intros ->.
    destruct (createTmpDir_numbered w w1 baseDir [] [] Hmk Hls) as (w2 & Hrun & Hdir & _);
      [constructor |].
    exists w2. split; assumption.
  - intros Hnames.
    set (ints := map (λ name, default 0 (py_int w1 name)) names).
    assert (Hparse : ∀ name, name ∈ names →
              py_int w1 name = Some (default 0 (py_int w1 name))
              ∧ default 0 (py_int w1 name) ∈ [0; 1; 3]).
    { intros name Hin. apply Hnames in Hin.
      repeat (apply elem_of_cons in Hin as [-> | Hin]);
        [| | | inversion Hin]; (split; [reflexivity |]);
        change (default 0 (py_int w1 _)) with 0 ||
        change (default 0 (py_int w1 _)) with 1 ||
        change (default 0 (py_int w1 _)) with 3;
        repeat constructor. }
    assert (Hnum : numbered w1 names ints).
    { unfold numbered, ints. apply Forall2_fmap_r, Forall_Forall2_diag, Forall_forall.
      intros name Hin. apply Hparse, Hin. }
    assert (Hnext : next_revision ints = 4).
    { apply next_revision_unique.
      - intros z Hz. unfold ints in Hz. apply list_elem_of_fmap in Hz as (name & -> & Hin).
        destruct (Hparse name Hin) as [_ Hz].
        repeat (apply elem_of_cons in Hz as [-> | Hz]); [lia | lia | lia | inversion Hz].
      - unfold ints. apply list_elem_of_fmap. exists "3". split; [reflexivity |].
        apply Hnames. repeat constructor. }
    destruct (createTmpDir_numbered w w1 baseDir names ints Hmk Hls Hnum)
      as (w2 & Hrun & Hdir & _).
    rewrite Hnext in Hrun, Hdir. exists w2. split; assumption.
  - intros ints Hnum. split; [| split; [| split]].
    + destruct (createTmpDir_numbered w w1 baseDir names ints Hmk Hls Hnum)
        as (w2 & Hrun & Hdir & Hls' & _).
      exists w2. repeat split; assumption.
    + apply next_revision_above.
    + apply next_revision_pred.
    + intros ->. reflexivity.
Qed.

(** C5.  When the per-user directory has an entry whose name does not
    parse as an integer, [createTmpDir] raises the [ValueError] of the first
    such entry, after printing the diagnostic that names the path of that
    entry; the file system is as it was, so no revision directory has been
    made.  ["scratch"] is such a name. *)
Theorem createTmpDir_corrupt (w : World) (baseDir : Path) (names : list string) :
  Pathlib.listdir w (baseDir // user w) = inr names →
  (∃ name, name ∈ names ∧ py_int w name = None) →
  (∃ bad w',
     bad ∈ names ∧ py_int w bad = None
     ∧ createTmpDir baseDir w = (Raise (ValueError bad), w')
     ∧ fs w' = fs w
     ∧ stderr w'
       = stderr w ++ [unexpected_subdir_message w
                        (PurePath.child (baseDir // user w) bad) (baseDir // user w)]
     ∧ ∃ before after,
         unexpected_subdir_message w
           (PurePath.child (baseDir // user w) bad) (baseDir // user w)
         = before +:+ PurePath.to_string (PurePath.child (baseDir // user w) bad)
             +:+ after)
  ∧ py_int w "scratch" = None.
Proof.
  intros Hls Hbad. split; [| reflexivity].
  apply first_invalid in Hbad as (good & bad & rest & ints & -> & Hgood & Hbad).
  exists bad. eexists. split; [| split; [exact Hbad | split]].
  - apply elem_of_app. right. left.
  - apply (createTmpDir_invalid w baseDir good rest bad ints Hls Hgood Hbad).
  - split; [reflexivity |]. split; [reflexivity |].
    unfold unexpected_subdir_message. eexists. eexists. reflexivity.
Qed.

(** C6, as amended.  Every entry enumerated under the per-user directory
    must parse as an integer, of either sign: for every per-user directory
    with an entry whose name parses as a negative integer (such as ["-1"]),
    the other entries parsing too, [createTmpDir] does not fail with the
    corruption error but uses that integer in the maximum-plus-one
    computation like any other: it makes and returns the directory
    numbered one more than the maximum of the integers found, which is one
    more than the negative integer itself when its entry is the only one
    ([0] after ["-1"], [-6] after ["-7"]). *)
Theorem createTmpDir_negative_entry (w : World) (baseDir : Path)
    (names : list string) (ints : list Z) (name : string) (z : Z) :
  Pathlib.listdir w (baseDir // user w) = inr names →
  numbered w names ints →
  name ∈ names →
  py_int w name = Some z →
  z < 0 →
  z ∈ ints
  ∧ (∃ w2,
       createTmpDir baseDir w
       = (Ok (baseDir // user w // PyInt.to_string (next_revision ints)), w2)
       ∧ Pathlib.is_dir w2 (baseDir // user w // PyInt.to_string (next_revision ints))
         = true
       ∧ stderr w2 = stderr w)
  ∧ (∀ n, n ∈ ints → n < next_revision ints)
  ∧ next_revision ints - 1 ∈ ints
  ∧ (names = [name] → next_revision ints = z + 1)
  ∧ py_int w "-1" = Some (-1).
Proof.
  intros Hls Hnum Hin Hparse Hneg.
  assert (Hz : z ∈ ints).
  { apply list_elem_of_lookup in Hin as [i Hi].
    destruct (Forall2_lookup_l _ _ _ _ _ Hnum Hi) as (z' & Hz' & Hparse').
    rewrite Hparse in Hparse'. injection Hparse' as <-.
    now apply list_elem_of_lookup_2 in Hz'. }
  split; [exact Hz |]. split; [| split; [| split; [| split]]].
  - destruct (createTmpDir_numbered w w baseDir names ints
                (mkdir_existing _ _ _ Hls) Hls Hnum) as (w2 & Hrun & Hdir & _ & Herr).
    exists w2. split; [exact Hrun | split; [exact Hdir | exact Herr]].
  - apply next_revision_above.
  - apply next_revision_pred. intros ->. inversion Hz.
  - intros ->. inversion Hnum as [| ? z' ? ints' Hz' Hrest]; subst.
    inversion Hrest; subst. rewrite Hparse in Hz'. injection Hz' as <-.
    unfold next_revision, max_list. simpl. reflexivity.
  - reflexivity.
Qed.

(** * The claims on the sample worlds *)

Lemma all_exist_decide (w : World) (paths : gset Path) :
  bool_decide (set_Forall (λ path, Is_true (Pathlib.path_exists w path)) paths) = true →
  all_exist w paths.
Proof. apply bool_decide_eq_true_1. Qed.

Example createTmpDir_first :
  (createTmpDir Sample.tmp Sample.repo).1 = Ok (PurePath.of_string "/tmp/alice/0").
Proof. reflexivity. Qed.

Example createTmpDir_after_0_1_3 :
  (createTmpDir Sample.tmp (Sample.with_scratch ["1"; "3"; "0"])).1
  = Ok (PurePath.of_string "/tmp/alice/4").
Proof. reflexivity. Qed.

Example createTmpDir_scratch :
  (createTmpDir Sample.tmp (Sample.with_scratch ["0"; "scratch"; "1"])).1
  = Raise (ValueError "scratch").
Proof. reflexivity. Qed.

Lemma getFilesToFormat_intersection_witness :
  getMergeBase "main" "HEAD" Sample.repo = (Ok "0123abc", Sample.repo)
  ∧ getChangedFiles "0123abc" "HEAD" Sample.repo
    = (Ok (map PurePath.of_string ["a.py"; "b.txt"; "c.py"]), Sample.repo)
  ∧ getFilesToFormat "main" Sample.repo
    = match getFormattablePaths Sample.repo with
      | (Ok formattablePaths, w3) =>
          (Ok (list_to_set (map PurePath.of_string ["a.py"; "b.txt"; "c.py"])
               ∩ formattablePaths), w3)
      | (Raise e, w3) => (Raise e, w3)
      end.
Proof.
  assert (H1 : getMergeBase "main" "HEAD" Sample.repo = (Ok "0123abc", Sample.repo))
    by (vm_compute; reflexivity).
  assert (H2 : getChangedFiles "0123abc" "HEAD" Sample.repo
               = (Ok (map PurePath.of_string ["a.py"; "b.txt"; "c.py"]), Sample.repo))
    by (vm_compute; reflexivity).
  split; [exact H1 | split; [exact H2 |]].
  exact (proj1 (getFilesToFormat_intersection _ _ _ _ _ _ H1 H2)).
Defined.

Lemma getFormattablePaths_difference_witness :
  Pathlib.read_text (ALLOWLISTPATH Sample.repo) Sample.repo
  = (Ok Sample.allowlist, Sample.repo)
  ∧ Pathlib.read_text (DENYLISTPATH Sample.repo) Sample.repo
    = (Ok Sample.denylist, Sample.repo)
  ∧ all_exist Sample.repo (glob_union Sample.repo (Str.split Str.LF Sample.allowlist))
  ∧ all_exist Sample.repo (glob_union Sample.repo (Str.split Str.LF Sample.denylist))
  ∧ getFormattablePaths Sample.repo
    = (Ok (glob_union Sample.repo (Str.split Str.LF Sample.allowlist)
           ∖ glob_union Sample.repo (Str.split Str.LF Sample.denylist)), Sample.repo).
Proof.
  assert (H1 : Pathlib.read_text (ALLOWLISTPATH Sample.repo) Sample.repo
               = (Ok Sample.allowlist, Sample.repo)) by (vm_compute; reflexivity).
  assert (H2 : Pathlib.read_text (DENYLISTPATH Sample.repo) Sample.repo
               = (Ok Sample.denylist, Sample.repo)) by (vm_compute; reflexivity).
  assert (H3 : all_exist Sample.repo
                 (glob_union Sample.repo (Str.split Str.LF Sample.allowlist)))
    by (apply all_exist_decide; vm_compute; reflexivity).
  assert (H4 : all_exist Sample.repo
                 (glob_union Sample.repo (Str.split Str.LF Sample.denylist)))
    by (apply all_exist_decide; vm_compute; reflexivity).
  repeat (split; [assumption |]).
  exact (proj1 (getFormattablePaths_difference _ _ _ H1 H2 H3 H4)).
Defined.

Lemma getGlobsFromFile_union_witness :
  Pathlib.read_text (ALLOWLISTPATH Sample.repo) Sample.repo
  = (Ok Sample.allowlist, Sample.repo)
  ∧ all_exist Sample.repo (glob_union Sample.repo (Str.split Str.LF Sample.allowlist))
  ∧ getGlobsFromFile (ALLOWLISTPATH Sample.repo) Sample.repo
    = (Ok (glob_union Sample.repo (Str.split Str.LF Sample.allowlist)), Sample.repo).
Proof.
  assert (H1 : Pathlib.read_text (ALLOWLISTPATH Sample.repo) Sample.repo
               = (Ok Sample.allowlist, Sample.repo)) by (vm_compute; reflexivity).
  assert (H2 : all_exist Sample.repo
                 (glob_union Sample.repo (Str.split Str.LF Sample.allowlist)))
    by (apply all_exist_decide; vm_compute; reflexivity).
  repeat (split; [assumption |]).
  exact (proj1 (getGlobsFromFile_union _ _ _ H1 H2)).
Defined.

Lemma createTmpDir_next_revision_witness :
  let w1 := set_fs Sample.repo (Sample.disk ++ Sample.scratch []) in
  let w := Sample.with_scratch ["1"; "3"; "0"] in
  Pathlib.mkdir (Sample.tmp // "alice") true true Sample.repo = (Ok tt, w1)
  ∧ Pathlib.listdir w1 (Sample.tmp // "alice") = inr []
  ∧ (∃ w2, createTmpDir Sample.tmp Sample.repo
           = (Ok (PurePath.of_string "/tmp/alice/0"), w2)
           ∧ Pathlib.is_dir w2 (PurePath.of_string "/tmp/alice/0") = true)
  ∧ Pathlib.mkdir (Sample.tmp // "alice") true true w = (Ok tt, w)
  ∧ Pathlib.listdir w (Sample.tmp // "alice") = inr ["1"; "3"; "0"]
  ∧ (∃ w2, createTmpDir Sample.tmp w
           = (Ok (PurePath.of_string "/tmp/alice/4"), w2)
           ∧ Pathlib.is_dir w2 (PurePath.of_string "/tmp/alice/4") = true).
Proof.
  intros w1 w.
  assert (H1 : Pathlib.mkdir (Sample.tmp // "alice") true true Sample.repo = (Ok tt, w1))
    by (vm_compute; reflexivity).
  assert (H2 : Pathlib.listdir w1 (Sample.tmp // "alice") = inr [])
    by (vm_compute; reflexivity).
  assert (H3 : Pathlib.mkdir (Sample.tmp // "alice") true true w = (Ok tt, w))
    by (vm_compute; reflexivity).
  assert (H4 : Pathlib.listdir w (Sample.tmp // "alice") = inr ["1"; "3"; "0"])
    by (vm_compute; reflexivity).
  split; [exact H1 | split; [exact H2 | split]].
  - exact (proj1 (createTmpDir_next_revision Sample.repo w1 Sample.tmp [] H1 H2) eq_refl).
  - split; [exact H3 | split; [exact H4 |]].
    apply (proj1 (proj2 (createTmpDir_next_revision w w Sample.tmp _ H3 H4))).
    intros name. rewrite !elem_of_cons. tauto.
Defined.

Lemma createTmpDir_corrupt_witness :
  let w := Sample.with_scratch ["0"; "scratch"; "1"] in
  Pathlib.listdir w (Sample.tmp // "alice") = inr ["0"; "scratch"; "1"]
  ∧ (∃ name, name ∈ ["0"; "scratch"; "1"] ∧ py_int w name = None)
  ∧ ∃ bad w',
      bad ∈ ["0"; "scratch"; "1"] ∧ py_int w bad = None
      ∧ createTmpDir Sample.tmp w = (Raise (ValueError bad), w')
      ∧ fs w' = fs w.
Proof.
  intros w.
  assert (H1 : Pathlib.listdir w (Sample.tmp // "alice") = inr ["0"; "scratch"; "1"])
    by (vm_compute; reflexivity).
  assert (H2 : ∃ name, name ∈ ["0"; "scratch"; "1"] ∧ py_int w name = None).
  { exists "scratch". split; [right; left | reflexivity]. }
  split; [exact H1 | split; [exact H2 |]].
  destruct (proj1 (createTmpDir_corrupt w Sample.tmp _ H1 H2))
    as (bad & w' & Hin & Hbad & Hrun & Hfs & _).
  exists bad, w'. repeat split; assumption.
Defined.

(** C6 fails as stated: with ["-1"] as the only entry, no corruption
    error is raised, and directory [0] is made. *)
Lemma createTmpDir_negative_entry_counterexample :
  Pathlib.listdir (Sample.with_scratch ["-1"]) (Sample.tmp // "alice") = inr ["-1"]
  ∧ (createTmpDir Sample.tmp (Sample.with_scratch ["-1"])).1
    = Ok (PurePath.of_string "/tmp/alice/0")
  ∧ stderr (createTmpDir Sample.tmp (Sample.with_scratch ["-1"])).2 = [].
Proof. repeat split; vm_compute; reflexivity. Qed.

Lemma createTmpDir_negative_entry_witness :
  Pathlib.listdir (Sample.with_scratch ["-7"]) (Sample.tmp // "alice") = inr ["-7"]
  ∧ numbered (Sample.with_scratch ["-7"]) ["-7"] [-7]
  ∧ "-7" ∈ ["-7"]
  ∧ py_int (Sample.with_scratch ["-7"]) "-7" = Some (-7)
  ∧ -7 < 0
  ∧ ∃ w2,
      createTmpDir Sample.tmp (Sample.with_scratch ["-7"])
      = (Ok (PurePath.of_string "/tmp/alice/-6"), w2).
Proof.
  assert (H1 : Pathlib.listdir (Sample.with_scratch ["-7"]) (Sample.tmp // "alice")
               = inr ["-7"]) by (vm_compute; reflexivity).
  assert (H2 : numbered (Sample.with_scratch ["-7"]) ["-7"] [-7])
    by (repeat constructor).
  assert (H3 : "-7" ∈ ["-7"]) by left.
  assert (H4 : py_int (Sample.with_scratch ["-7"]) "-7" = Some (-7)) by reflexivity.
  assert (H5 : -7 < 0) by lia.
  split; [exact H1 | split; [exact H2 | split; [exact H3 | split; [exact H4 |
    split; [exact H5 |]]]]].
  destruct (proj1 (proj2 (createTmpDir_negative_entry _ Sample.tmp _ _ _ _ H1 H2 H3 H4 H5)))
    as (w2 & Hrun & _).
  exists w2. exact Hrun.
Defined.

Lemma command_failure_propagates_witness :
  exits_nonzero Sample.broken (merge_base_cmd "main" "HEAD")
  ∧ exits_nonzero Sample.broken (diff_cmd "main" "HEAD")
  ∧ exits_nonzero Sample.broken ls_tree_cmd
  ∧ getMergeBase "main" "HEAD" Sample.diverged = (Ok "feedbee", Sample.diverged)
  ∧ exits_nonzero Sample.diverged (diff_cmd "feedbee" "HEAD")
  ∧ (getMergeBase "main" "HEAD" Sample.broken).1
    = Raise (CalledProcessError 128 (merge_base_cmd "main" "HEAD")
               "fatal: not a git repository")
  ∧ (getChangedFiles "main" "HEAD" Sample.broken).1
    = Raise (CalledProcessError 128 (diff_cmd "main" "HEAD")
               "fatal: not a git repository")
  ∧ (getAllTrackedFiles Sample.broken).1
    = Raise (CalledProcessError 128 ls_tree_cmd "fatal: not a git repository")
  ∧ (getFilesToFormat "main" Sample.broken).1
    = Raise (CalledProcessError 128 (merge_base_cmd "main" "HEAD")
               "fatal: not a git repository")
  ∧ (getFilesToFormat "main" Sample.diverged).1
    = Raise (CalledProcessError 128 (diff_cmd "feedbee" "HEAD") "fatal: bad revision")
  ∧ (getTrackedFormattablePaths Sample.broken).1
    = Raise (CalledProcessError 128 ls_tree_cmd "fatal: not a git repository").
Proof.
  assert (H1 : exits_nonzero Sample.broken (merge_base_cmd "main" "HEAD")) by discriminate.
  assert (H2 : exits_nonzero Sample.broken (diff_cmd "main" "HEAD")) by discriminate.
  assert (H3 : exits_nonzero Sample.broken ls_tree_cmd) by discriminate.
  assert (H4 : getMergeBase "main" "HEAD" Sample.diverged = (Ok "feedbee", Sample.diverged))
    by (vm_compute; reflexivity).
  assert (H5 : exits_nonzero Sample.diverged (diff_cmd "feedbee" "HEAD")) by discriminate.
  destruct (command_failure_propagates Sample.broken) as (A & B & C & D & _ & F).
  destruct (command_failure_propagates Sample.diverged) as (_ & _ & _ & _ & E & _).
  repeat (split; [assumption |]).
  rewrite (A _ _ H1), (B _ _ H2), (C H3), (D _ H1), (E _ _ H4 H5), (F H3).
  repeat split.
Defined.

(** C8 fails as stated for the tracked-file listing: [gone.py] is tracked,
    is returned, and is not on disk. *)
Lemma tracked_files_counterexample :
  getAllTrackedFiles Sample.repo
  = (Ok [PurePath.of_string "a.py"; PurePath.of_string "gone.py"], Sample.repo)
  ∧ Pathlib.path_exists Sample.repo (PurePath.of_string "gone.py") = false.
Proof. split; vm_compute; reflexivity. Qed.

Lemma resolved_paths_exist_witness :
  getFilesToFormat "main" Sample.repo
  = (Ok (list_to_set [PurePath.of_string "a.py"; PurePath.of_string "c.py"]), Sample.repo)
  ∧ getTrackedFormattablePaths Sample.repo
    = (Ok (list_to_set [PurePath.of_string "a.py"]), Sample.repo)
  ∧ all_exist Sample.repo (list_to_set [PurePath.of_string "a.py"; PurePath.of_string "c.py"])
  ∧ all_exist Sample.repo (list_to_set [PurePath.of_string "a.py"]).
Proof.
  assert (H1 : getFilesToFormat "main" Sample.repo
               = (Ok (list_to_set [PurePath.of_string "a.py"; PurePath.of_string "c.py"]),
                  Sample.repo)) by (vm_compute; reflexivity).
  assert (H2 : getTrackedFormattablePaths Sample.repo
               = (Ok (list_to_set [PurePath.of_string "a.py"]), Sample.repo))
    by (vm_compute; reflexivity).
  destruct (resolved_paths_exist Sample.repo Sample.repo) as (_ & _ & _ & A & B).
  split; [exact H1 | split; [exact H2 | split]].
  - exact (proj2 (A _ _ H1)).
  - exact (proj2 (B _ H2)).
Defined.



Lemma empty_output_current_directory_witness :
  exits_zero_with Sample.quiet ls_tree_cmd ""
  ∧ getAllTrackedFiles Sample.quiet = (Ok [PurePath.of_string ""], Sample.quiet)
  ∧ exits_zero_with Scene.unchanged (diff_cmd "0123abc" "HEAD") ""
  ∧ is_Some (Fs.node_at (fs Scene.unchanged) (cwd Scene.unchanged))
  ∧ getAllTrackedFiles Scene.unchanged
    = (Ok (map PurePath.of_string ["a.py"; "gone.py"]), Scene.unchanged)
  ∧ getChangedFiles "0123abc" "HEAD" Scene.unchanged
    = (Ok [PurePath.of_string ""], Scene.unchanged).
Proof.
  assert (H1 : exits_zero_with Sample.quiet ls_tree_cmd "") by reflexivity.
  assert (H2 : exits_zero_with Scene.unchanged (diff_cmd "0123abc" "HEAD") "")
    by reflexivity.
  assert (H3 : is_Some (Fs.node_at (fs Scene.unchanged) (cwd Scene.unchanged)))
    by (exists Dir; reflexivity).
  assert (H4 : getAllTrackedFiles Scene.unchanged
               = (Ok (map PurePath.of_string ["a.py"; "gone.py"]), Scene.unchanged))
    by (vm_compute; reflexivity).
  destruct (empty_output_current_directory Sample.quiet) as (A & _).
  destruct (empty_output_current_directory Scene.unchanged) as (_ & B & _).
  split; [exact H1 | split; [exact (A H1) | split; [exact H2 | split; [exact H3 |
    split; [exact H4 | exact (B _ _ H2 H3)]]]]].
Defined.

(** * Further properties *)

(** ** Extending the world *)

Lemma extend_nil (w : World) : extend w [] [] = w.
Proof. destruct w. unfold extend. simpl. now rewrite !app_nil_r. Qed.

Lemma extend_extend (w : World) (e1 e2 : FS) (m1 m2 : list string) :
  extend (extend w e1 m1) e2 m2 = extend w (e1 ++ e2) (m1 ++ m2).
Proof. unfold extend. simpl. now rewrite !app_assoc. Qed.

Lemma set_fs_extend (w : World) (extra : FS) :
  set_fs w (fs w ++ extra) = extend w extra [].
Proof. unfold set_fs, extend. now rewrite app_nil_r. Qed.

Lemma add_stderr_extend (w : World) (msg : string) :
  add_stderr w msg = extend w [] [msg].
Proof. unfold add_stderr, extend. now rewrite app_nil_r. Qed.

Lemma stat_extend (w : World) (extra : FS) (msgs : list string) (p : Path) (n : Node) :
  Pathlib.stat w p = inr n → Pathlib.stat (extend w extra msgs) p = inr n.
Proof.
  unfold Pathlib.stat, Fs.stat.
  change (Pathlib.from (extend w extra msgs) p) with (Pathlib.from w p).
  change (fs (extend w extra msgs)) with (fs w ++ extra).
  destruct (Fs.walk (fs w) (Pathlib.from w p) (tail p)) as [e | loc] eqn:Hwalk;
    [discriminate |].
  rewrite (walk_app_fs _ extra _ _ _ Hwalk).
  destruct (Fs.node_at (fs w) loc) as [m |] eqn:Hnode; [| discriminate].
  now rewrite (node_at_app_Some _ extra _ _ Hnode).
Qed.

(** ** Computations that only add directories *)

Lemma only_adds_bind {A B} (m : M A) (f : A → M B) :
  only_adds m → (∀ a, only_adds (f a)) → only_adds (m ≫= f).
Proof.
  intros Hm Hf w r w' Hrun. rewrite run_bind in Hrun.
  destruct (m w) as [[a | e] w1] eqn:Hmw.
  - destruct (Hm _ _ _ Hmw) as (e1 & m1 & -> & Hd1 & Hv1).
    destruct m1 as [| msg m1]; [| destruct (Hv1 ltac:(discriminate)) as [bad [=]]].
    destruct (Hf a _ _ _ Hrun) as (e2 & m2 & -> & Hd2 & Hv2).
    exists (e1 ++ e2), m2. rewrite extend_extend. simpl.
    split; [reflexivity |]. split; [now apply Forall_app | exact Hv2].
  - injection Hrun as <- <-.
    destruct (Hm _ _ _ Hmw) as (e1 & m1 & -> & Hd1 & Hv1).
    exists e1, m1. split; [reflexivity |]. split; [exact Hd1 |].
    intros Hne. destruct (Hv1 Hne) as [bad [= ->]]. eauto.
Qed.

Lemma only_adds_pure {A} (m : M A) :
  (∀ w, (m w).2 = w) → only_adds m.
Proof.
  intros H w r w' Hrun. exists [], []. rewrite extend_nil.
  specialize (H w). rewrite Hrun in H. simpl in H. subst w'.
  split; [reflexivity |]. split; [constructor | congruence].
Qed.

Lemma Fs_mkdir_inv (fs fs' : FS) (from : Loc) (comps : list string) :
  Fs.mkdir fs from comps = inr fs' → ∃ loc, fs' = fs ++ [(loc, Dir)].
Proof.
  unfold Fs.mkdir. destruct (rev comps) as [| c rinit]; [discriminate |].
  destruct (Fs.walk fs from (rev rinit)) as [e | loc]; [discriminate |].
  destruct (Fs.node_at fs loc) as [[content |] |]; try discriminate.
  destruct (decide (c = "" ∨ c = "." ∨ c = "..")); [discriminate |].
  destruct (Fs.node_at fs (c :: loc)); [discriminate |].
  intros [= <-]. eauto.
Qed.

Lemma only_adds_mkdir_flat (p : Path) (exist_ok : bool) :
  only_adds (Pathlib.mkdir_flat p exist_ok).
Proof.
  intros w r w'. unfold Pathlib.mkdir_flat, Pathlib.os_error, raise.
  destruct (Fs.mkdir (fs w) (Pathlib.from w p) (tail p)) as [e | fs'] eqn:Hmk.
  - intros Hrun. assert (Hw : w' = w).
    { revert Hrun.
      destruct e; try destruct (negb exist_ok || negb (Pathlib.is_dir w p)); congruence. }
    subst w'. exists [], []. rewrite extend_nil.
    split; [reflexivity |]. split; [constructor | congruence].
  - apply Fs_mkdir_inv in Hmk as [loc ->]. intros [= <- <-].
    exists [(loc, Dir)], []. rewrite set_fs_extend.
    split; [reflexivity |]. split; [repeat constructor | congruence].
Qed.

Lemma only_adds_mkdir_parents (r : string) (rparts : list string) (exist_ok : bool) :
  only_adds (Pathlib.mkdir_parents r rparts exist_ok).
Proof.
  revert exist_ok. induction rparts as [| c rparent IH]; intros exist_ok w res w';
    rewrite mkdir_parents_unfold; cbv zeta;
    unfold Pathlib.os_error, raise;
    destruct (Fs.mkdir (fs w) _ _) as [e | fs'] eqn:Hmk.
  - intros Hrun. assert (Hw : w' = w).
    { revert Hrun.
      destruct e; try destruct (negb exist_ok || negb (Pathlib.is_dir w _)); congruence. }
    subst w'. exists [], []. rewrite extend_nil.
    split; [reflexivity |]. split; [constructor | congruence].
  - apply Fs_mkdir_inv in Hmk as [loc ->]. intros [= <- <-].
    exists [(loc, Dir)], []. rewrite set_fs_extend.
    split; [reflexivity |]. split; [repeat constructor | congruence].
  - destruct e.
    + apply (only_adds_bind _ _ (IH true) (λ _, only_adds_mkdir_flat _ exist_ok)).
    + destruct (negb exist_ok || negb (Pathlib.is_dir w _)); intros [= <- <-];
        exists [], []; rewrite extend_nil;
        (split; [reflexivity |]); (split; [constructor | congruence]).
    + destruct (negb exist_ok || negb (Pathlib.is_dir w _)); intros [= <- <-];
        exists [], []; rewrite extend_nil;
        (split; [reflexivity |]); (split; [constructor | congruence]).
    + destruct (negb exist_ok || negb (Pathlib.is_dir w _)); intros [= <- <-];
        exists [], []; rewrite extend_nil;
        (split; [reflexivity |]); (split; [constructor | congruence]).
  - apply Fs_mkdir_inv in Hmk as [loc ->]. intros [= <- <-].
    exists [(loc, Dir)], []. rewrite set_fs_extend.
    split; [reflexivity |]. split; [repeat constructor | congruence].
Qed.

Lemma only_adds_mkdir (p : Path) (parents exist_ok : bool) :
  only_adds (Pathlib.mkdir p parents exist_ok).
Proof.
  unfold Pathlib.mkdir. destruct parents;
    [apply only_adds_mkdir_parents | apply only_adds_mkdir_flat].
Qed.

Lemma only_adds_iterdir (p : Path) : only_adds (Pathlib.iterdir p).
Proof.
  apply only_adds_pure. intros w. unfold Pathlib.iterdir, Pathlib.os_error, raise.
  destruct (Pathlib.listdir w p); reflexivity.
Qed.

Lemma only_adds_loop (userTmpDir : Path) (entries : list Path) (subdirs : list Z) :
  only_adds (createTmpDir_loop userTmpDir entries subdirs).
Proof.
  revert subdirs. induction entries as [| subdir rest IH]; intros subdirs.
  - apply only_adds_pure. reflexivity.
  - cbn [createTmpDir_loop]. apply only_adds_bind; [| intros n; apply IH].
    intros w r w'. unfold try_except. rewrite int_run.
    destruct (py_int w (PurePath.name subdir)) as [z |].
    + intros [= <- <-]. exists [], []. rewrite extend_nil.
      split; [reflexivity |]. split; [constructor | congruence].
    + intros [= <- <-]. eexists [], [_]. rewrite <- add_stderr_extend.
      split; [reflexivity |]. split; [constructor | eauto].
Qed.

Lemma only_adds_createTmpDir (baseDir : Path) : only_adds (createTmpDir baseDir).
Proof.
  unfold createTmpDir.
  apply only_adds_bind; [apply only_adds_pure; reflexivity | intros username].
  apply only_adds_bind; [apply only_adds_mkdir | intros _].
  apply only_adds_bind; [apply only_adds_iterdir | intros entries].
  apply only_adds_bind; [apply only_adds_loop | intros subdirs].
  apply only_adds_bind; [apply only_adds_mkdir | intros _].
  apply only_adds_pure. reflexivity.
Qed.

(** ** Computations that leave the world as it is *)






















(** X2.  [getTrackedFormattablePaths] returns the intersection of the set
    of the tracked files with the formattable set; a tracked file that is
    not on disk is never in the result, although [getAllTrackedFiles]
    returns it. *)
Theorem getTrackedFormattablePaths_intersection (w w1 w2 : World)
    (trackedFiles : list Path) (formattablePaths : gset Path) :
  getAllTrackedFiles w = (Ok trackedFiles, w1) →
  getFormattablePaths w1 = (Ok formattablePaths, w2) →
  getTrackedFormattablePaths w
  = (Ok (list_to_set trackedFiles ∩ formattablePaths), w2)
  ∧ (∀ p, p ∈ (list_to_set trackedFiles ∩ formattablePaths : gset Path)
          ↔ p ∈ trackedFiles ∧ p ∈ formattablePaths)
  ∧ (∀ p, Pathlib.path_exists w p = false →
          p ∉ (list_to_set trackedFiles ∩ formattablePaths : gset Path)).
Proof.
  intros Htr Hfp. split; [| split].
  - unfold getTrackedFormattablePaths.
    now rewrite (bind_Ok _ _ _ _ _ Htr), (bind_Ok _ _ _ _ _ Hfp).
  - intros p. rewrite elem_of_intersection, elem_of_list_to_set. tauto.
  - intros p Hgone Hin. apply elem_of_intersection in Hin as [_ Hin].
    apply getAllTrackedFiles_Ok in Htr as [-> _].
    pose proof (getFormattablePaths_exist _ _ _ Hfp) as Hall.
    apply getFormattablePaths_world in Hfp as ->.
    specialize (Hall p Hin). cbv beta in Hall. rewrite Hgone in Hall. exact Hall.
Qed.

Lemma read_text_functional (w w1 w2 : World) (p : Path) (t1 t2 : string) :
  Pathlib.read_text p w = (Ok t1, w1) → Pathlib.read_text p w = (Ok t2, w2) → t1 = t2.
Proof. congruence. Qed.

Lemma formattable_not_denied (w w' : World) (paths : gset Path) (denyText : string) (p : Path) :
  getFormattablePaths w = (Ok paths, w') →
  Pathlib.read_text (DENYLISTPATH w) w = (Ok denyText, w) →
  p ∈ glob_union w (Str.split Str.LF denyText) →
  p ∉ paths.
Proof.
  intros H Hread Hp.
  apply getFormattablePaths_Ok in H as (_ & allow & deny & _ & Hdeny & ->).
  apply getGlobsFromFile_Ok in Hdeny as (_ & _ & text & Hread' & ->).
  rewrite (read_text_functional _ _ _ _ _ _ Hread' Hread).
  apply not_elem_of_difference. now right.
Qed.

(** X3.  The denylist wins in the composed queries too: no path of the
    denylist's expansion is ever in the result of [getFilesToFormat] or of
    [getTrackedFormattablePaths], changed or tracked as it may be. *)
Theorem denied_paths_never_selected (w : World) (denyText : string) (p : Path) :
  Pathlib.read_text (DENYLISTPATH w) w = (Ok denyText, w) →
  p ∈ glob_union w (Str.split Str.LF denyText) →
  (∀ changedSince files w',
     getFilesToFormat changedSince w = (Ok files, w') → p ∉ files)
  ∧ (∀ files w', getTrackedFormattablePaths w = (Ok files, w') → p ∉ files).
Proof.
  intros Hread Hp. split.
  - intros changedSince files w' H.
    apply getFilesToFormat_Ok in H as (_ & mb & ch & fp & _ & _ & Hfp & ->).
    intros Hin. apply elem_of_intersection in Hin as [_ Hin].
    exact (formattable_not_denied _ _ _ _ _ Hfp Hread Hp Hin).
  - intros files w' H.
    apply getTrackedFormattablePaths_Ok in H as (_ & tr & fp & _ & Hfp & ->).
    intros Hin. apply elem_of_intersection in Hin as [_ Hin].
    exact (formattable_not_denied _ _ _ _ _ Hfp Hread Hp Hin).
Qed.

(** X4.  A match that is not on disk when [getGlobsFromFile] checks its
    result makes it raise [AssertionError] instead of returning; when the
    glob list is the allowlist, [getFormattablePaths] raises the same and
    never reads the denylist's verdict. *)
Theorem stale_match_aborts (w : World) (globlistFile : Path) (text : string) :
  Pathlib.read_text globlistFile w = (Ok text, w) →
  ¬ all_exist w (glob_union w (Str.split Str.LF text)) →
  getGlobsFromFile globlistFile w = (Raise AssertionError, w)
  ∧ (globlistFile = ALLOWLISTPATH w →
     getFormattablePaths w = (Raise AssertionError, w)).
Proof.
  intros Hread Hstale.
  assert (H : getGlobsFromFile globlistFile w = (Raise AssertionError, w)).
  { rewrite getGlobsFromFile_run, Hread. cbv zeta.
    now rewrite bool_decide_eq_false_2. }
  split; [exact H |]. intros ->. now rewrite getFormattablePaths_run, H.
Qed.

(** ** More on [createTmpDir] *)

(** X5.  Whatever its outcome, [createTmpDir] only adds directories: the
    environment is untouched, every node that was on disk is still there
    with its content, and a line is printed to the standard error stream
    only when the call raises [ValueError]. *)
Theorem createTmpDir_only_adds (baseDir : Path) (w w' : World) (r : Result Path) :
  createTmpDir baseDir w = (r, w') →
  (∃ extra msgs,
     w' = extend w extra msgs ∧ directories extra
     ∧ (msgs ≠ [] → ∃ bad, r = Raise (ValueError bad)))
  ∧ (∀ p n, Pathlib.stat w p = inr n → Pathlib.stat w' p = inr n).
Proof.
  intros Hrun.
  destruct (only_adds_createTmpDir baseDir _ _ _ Hrun) as (extra & msgs & -> & Hd & Hv).
  split; [eauto |]. intros p n. apply stat_extend.
Qed.

Lemma py_int_extend (w : World) (extra : FS) (msgs : list string) (s : string) :
  py_int (extend w extra msgs) s = py_int w s.
Proof. reflexivity. Qed.

Lemma numbered_extend (w : World) (extra : FS) (msgs : list string)
    (names : list string) (ints : list Z) :
  numbered w names ints → numbered (extend w extra msgs) names ints.
Proof. intros H. exact H. Qed.

Lemma to_string_inj (a b : Z) : PyInt.to_string a = PyInt.to_string b → a = b.
Proof.
  intros H. pose proof (int_of_to_string a) as Ha. rewrite H, int_of_to_string in Ha.
  congruence.
Qed.

(** X6.  Two calls in a row number their directories consecutively: when a
    call makes revision [r], the next call on the world it leaves makes
    revision [r + 1], a different directory. *)
Theorem createTmpDir_twice (w w1 : World) (baseDir : Path)
    (names : list string) (ints : list Z) :
  Pathlib.mkdir (baseDir // user w) true true w = (Ok tt, w1) →
  Pathlib.listdir w1 (baseDir // user w) = inr names →
  numbered w1 names ints →
  ∃ w2 w3,
    createTmpDir baseDir w
    = (Ok (baseDir // user w // PyInt.to_string (next_revision ints)), w2)
    ∧ createTmpDir baseDir w2
      = (Ok (baseDir // user w // PyInt.to_string (next_revision ints + 1)), w3)
    ∧ baseDir // user w // PyInt.to_string (next_revision ints)
      ≠ baseDir // user w // PyInt.to_string (next_revision ints + 1).
Proof.
  intros Hmk Hls Hnum.
  destruct (createTmpDir_numbered w w1 baseDir names ints Hmk Hls Hnum)
    as (w2 & Hrun & _ & Hls2 & _).
  destruct (only_adds_mkdir _ _ _ _ _ _ Hmk) as (e1 & m1 & -> & _ & _).
  destruct (only_adds_createTmpDir baseDir _ _ _ Hrun) as (e2 & m2 & -> & _ & _).
  set (r := next_revision ints) in *.
  assert (Hnum2 : numbered (extend w e2 m2) (names ++ [PyInt.to_string r]) (ints ++ [r])).
  { apply Forall2_app; [exact Hnum |]. constructor; [| constructor].
    apply py_int_to_string. }
  assert (Hnext : next_revision (ints ++ [r]) = r + 1).
  { apply next_revision_unique.
    - intros z Hz. apply elem_of_app in Hz as [Hz | Hz].
      + apply next_revision_above in Hz. fold r in Hz. lia.
      + apply list_elem_of_singleton in Hz. lia.
    - replace (r + 1 - 1) with r by lia. apply elem_of_app. right. left. }
  change (user w) with (user (extend w e2 m2)) in Hls2 at 1.
  destruct (createTmpDir_numbered _ _ baseDir _ _ (mkdir_existing _ _ _ Hls2) Hls2 Hnum2)
    as (w3 & Hrun3 & _).
  rewrite Hnext in Hrun3.
  exists (extend w e2 m2), w3. split; [exact Hrun |]. split; [exact Hrun3 |].
  destruct (joinpath_numeral (baseDir // user w) r) as [-> _].
  destruct (joinpath_numeral (baseDir // user w) (r + 1)) as [-> _].
  unfold PurePath.child. intros [= H]. apply app_inv_head in H.
  injection H as H. apply to_string_inj in H. lia.
Qed.

Lemma mkdir_file_in_the_way (w : World) (p : Path) (content : string) :
  Pathlib.stat w p = inr (File content) →
  Pathlib.mkdir p true true w = (Raise (OSError EEXIST (PurePath.to_string p)), w).
Proof.
  destruct p as [r t]. intros Hstat.
  unfold Pathlib.mkdir. cbn [root tail].
  rewrite mkdir_parents_unfold, rev_involutive. cbv zeta. cbn [tail].
  unfold Pathlib.stat, Fs.stat in Hstat. cbn [tail] in Hstat.
  destruct (Fs.walk (fs w) (Pathlib.from w (MkPath r t)) t) as [e | loc] eqn:Hwalk;
    [discriminate |].
  destruct (Fs.node_at (fs w) loc) as [n |] eqn:Hnode; [| discriminate].
  injection Hstat as ->.
  rewrite (Fs_mkdir_existing _ _ loc _ Hwalk) by (rewrite Hnode; eauto).
  assert (Hdir : Pathlib.is_dir w (MkPath r t) = false).
  { unfold Pathlib.is_dir, Pathlib.stat, Fs.stat. cbn [tail]. now rewrite Hwalk, Hnode. }
  rewrite Hdir. reflexivity.
Qed.

(** X7.  When the per-user path is taken by a regular file,
    [createTmpDir] raises [FileExistsError] for that path: [exist_ok]
    only pardons a directory.  Nothing is made and nothing is printed. *)
Theorem createTmpDir_file_in_the_way (w : World) (baseDir : Path) (content : string) :
  Pathlib.stat w (baseDir // user w) = inr (File content) →
  createTmpDir baseDir w
  = (Raise (OSError EEXIST (PurePath.to_string (baseDir // user w))), w).
Proof.
  intros Hstat. unfold createTmpDir. rewrite run_bind. unfold gets.
  apply bind_Raise, mkdir_file_in_the_way with (content := content), Hstat.
Qed.

Lemma root_of_relative (c : ascii) (s : string) :
  c ≠ Str.slash → PurePath.root_of (String c s) = "".
Proof.
  intros Hc. unfold PurePath.root_of.
  destruct c as [[|] [|] [|] [|] [|] [|] [|] [|]]; try reflexivity.
  exfalso. apply Hc. reflexivity.
Qed.

(** A single component joins as a child. *)
Lemma joinpath_component (p : Path) (c : string) :
  component c → p // c = PurePath.child p c.
Proof.
  intros [Hplain Hchars]. unfold plain in Hplain.
  destruct c as [| a s]; [tauto |].
  assert (Ha : a ≠ Str.slash).
  { simpl in Hchars. apply andb_true_iff in Hchars as [Ha _].
    apply negb_true_iff in Ha. intros ->. discriminate. }
  unfold PurePath.joinpath, PurePath.of_string.
  rewrite (split_no_slash _ Hchars), (root_of_relative a s Ha).
  cbn [filter list_filter].
  assert (Hkeep : PurePath.keep_part (String a s) = true).
  { unfold PurePath.keep_part. cbn [Str.is_empty negb andb].
    destruct (String.eqb_spec (String a s) "."); [tauto | reflexivity]. }
  rewrite decide_True by (rewrite Hkeep; exact I). reflexivity.
Qed.

Lemma assoc_elem_of (fs : FS) (loc : Loc) (n : Node) :
  Fs.assoc fs loc = Some n → (loc, n) ∈ fs.
Proof.
  induction fs as [| [k m] fs IH]; simpl; [discriminate |].
  destruct (decide (k = loc)) as [-> | _]; [intros [= ->]; left | right; auto].
Qed.

(** Without orphans, what is not there has no entries. *)
Lemma absent_no_children (fs : FS) (loc : Loc) :
  no_orphans fs → loc ≠ [] → Fs.assoc fs loc = None → Fs.children fs loc = [].
Proof.
  intros Hwf Hne Hnone.
  destruct (Fs.children fs loc) as [| c cs] eqn:Hch; [reflexivity |].
  assert (Hin : c ∈ Fs.children fs loc) by (rewrite Hch; left).
  apply assoc_children in Hin as [n Hn]. apply assoc_elem_of in Hn.
  rewrite (Hwf _ _ _ Hn Hne) in Hnone. discriminate.
Qed.

Lemma cons_neq_self {A} (x : A) (l : list A) : l ≠ x :: l.
Proof. intros H. apply (f_equal length) in H. simpl in H. lia. Qed.

Lemma mkdir_parents_new_child (w : World) (p : Path) (loc : Loc) (c : string) :
  locate w p = inr loc →
  Fs.node_at (fs w) loc = Some Dir →
  plain c →
  c ∉ Fs.children (fs w) loc →
  Pathlib.mkdir (PurePath.child p c) true true w
  = (Ok tt, set_fs w (fs w ++ [(c :: loc, Dir)])).
Proof.
  intros Hloc Hnode Hplain Hnew. unfold locate in Hloc.
  unfold Pathlib.mkdir. rewrite mkdir_parents_unfold, rev_involutive. cbv zeta.
  cbn [PurePath.child root tail].
  change (Pathlib.from w {| root := root p; tail := tail p ++ [c] |})
    with (Pathlib.from w p).
  now rewrite (Fs_mkdir_fresh _ _ loc _ c Hloc Hnode Hplain Hnew).
Qed.

(** The new entry of a directory, on a disk without orphans, is an empty
    directory. *)
Lemma new_child_empty (w : World) (p : Path) (loc : Loc) (c : string) :
  no_orphans (fs w) →
  locate w p = inr loc →
  Fs.node_at (fs w) loc = Some Dir →
  plain c →
  c ∉ Fs.children (fs w) loc →
  Pathlib.listdir (set_fs w (fs w ++ [(c :: loc, Dir)])) (PurePath.child p c) = inr [].
Proof.
  intros Hwf Hloc Hnode Hplain Hnew.
  assert (Hnone : Fs.assoc (fs w) (c :: loc) = None).
  { destruct (Fs.assoc (fs w) (c :: loc)) eqn:E; [| reflexivity].
    exfalso. apply Hnew, assoc_children. eauto. }
  unfold Pathlib.listdir. rewrite from_child. cbn [PurePath.child tail].
  change (fs (set_fs w (fs w ++ [(c :: loc, Dir)]))) with (fs w ++ [(c :: loc, Dir)]).
  change (Pathlib.from (set_fs w (fs w ++ [(c :: loc, Dir)])) p) with (Pathlib.from w p).
  unfold locate in Hloc.
  rewrite walk_app, (walk_app_fs _ _ _ _ _ Hloc). cbn [Fs.walk].
  unfold Fs.step. rewrite (node_at_app_Some _ _ _ _ Hnode).
  unfold plain in Hplain.
  rewrite decide_False by tauto. rewrite decide_False by tauto.
  assert (Hc : Fs.node_at (fs w ++ [(c :: loc, Dir)]) (c :: loc) = Some Dir).
  { cbn [Fs.node_at]. rewrite assoc_app_None by exact Hnone.
    simpl. now rewrite decide_True. }
  rewrite Hc, Hc, children_app.
  assert (Hcons : c :: loc ≠ []) by discriminate.
  rewrite (absent_no_children _ _ Hwf Hcons Hnone).
  simpl. rewrite decide_False by apply cons_neq_self. reflexivity.
Qed.

Lemma new_child_located (w : World) (p : Path) (loc : Loc) (c : string) :
  locate w p = inr loc →
  Fs.node_at (fs w) loc = Some Dir →
  plain c →
  c ∉ Fs.children (fs w) loc →
  locate (set_fs w (fs w ++ [(c :: loc, Dir)])) (PurePath.child p c) = inr (c :: loc).
Proof.
  intros Hloc Hnode Hplain Hnew.
  assert (Hnone : Fs.assoc (fs w) (c :: loc) = None).
  { destruct (Fs.assoc (fs w) (c :: loc)) eqn:E; [| reflexivity].
    exfalso. apply Hnew, assoc_children. eauto. }
  unfold locate in *. rewrite from_child. cbn [PurePath.child tail].
  change (fs (set_fs w (fs w ++ [(c :: loc, Dir)]))) with (fs w ++ [(c :: loc, Dir)]).
  change (Pathlib.from (set_fs w (fs w ++ [(c :: loc, Dir)])) p) with (Pathlib.from w p).
  rewrite walk_app, (walk_app_fs _ _ _ _ _ Hloc). cbn [Fs.walk].
  unfold Fs.step. rewrite (node_at_app_Some _ _ _ _ Hnode).
  unfold plain in Hplain.
  rewrite decide_False by tauto. rewrite decide_False by tauto.
  cbn [Fs.node_at]. rewrite assoc_app_None by exact Hnone.
  simpl. now rewrite decide_True.
Qed.

(** X8.  The first call for a user: in a base directory that is there and
    has no entry named after the user (on a disk without orphans, the
    user's name being a single path component, and the path of directory
    [0] within the limits of the system on the length of a name and of a
    path), [createTmpDir] makes the per-user directory and, in it,
    directory [0], which it returns. *)
Theorem createTmpDir_fresh_user (w : World) (baseDir : Path) (names : list string) :
  no_orphans (fs w) →
  component (user w) →
  within_limits (baseDir // user w // "0") →
  Pathlib.listdir w baseDir = inr names →
  user w ∉ names →
  ∃ w2,
    createTmpDir baseDir w = (Ok (baseDir // user w // "0"), w2)
    ∧ Pathlib.listdir w2 baseDir = inr (names ++ [user w])
    ∧ Pathlib.listdir w2 (baseDir // user w) = inr ["0"]
    ∧ Pathlib.is_dir w2 (baseDir // user w // "0") = true.
Proof.
  intros Hwf Hcomp _ Hls Hnew.
  destruct (listdir_inv _ _ _ Hls) as (loc & Hloc & Hnode & ->).
  pose proof (proj1 Hcomp) as Hplain.
  rewrite (joinpath_component baseDir _ Hcomp).
  pose proof (mkdir_parents_new_child w baseDir loc _ Hloc Hnode Hplain Hnew) as Hmk.
  pose proof (new_child_empty w baseDir loc _ Hwf Hloc Hnode Hplain Hnew) as Hempty.
  rewrite <- (joinpath_component baseDir _ Hcomp) in Hmk, Hempty.
  destruct (createTmpDir_numbered w _ baseDir [] [] Hmk Hempty ltac:(constructor))
    as (w2 & Hrun & Hdir & Hls2 & _).
  rewrite <- (joinpath_component baseDir _ Hcomp).
  exists w2. split; [exact Hrun |]. split; [| split; [exact Hls2 | exact Hdir]].
  (* the listing of the base directory after the call *)
  destruct (listdir_inv _ _ _ Hempty) as (locu & Hlocu & Hnodeu & _).
  pose proof (joinpath_numeral (baseDir // user w) 0) as [Hj0 Hp0].
  assert (Hnew0 : PyInt.to_string 0 ∉ Fs.children
                    (fs (set_fs w (fs w ++ [(user w :: loc, Dir)]))) locu).
  { destruct (listdir_inv _ _ _ Hempty) as (l' & Hl' & _ & Hn').
    rewrite Hlocu in Hl'. injection Hl' as <-. rewrite <- Hn'. inversion 1. }
  pose proof (mkdir_new_child _ (baseDir // user w) locu _ Hlocu Hnodeu Hp0 Hnew0) as Hmk0.
  assert (Hw2' : w2 = set_fs (set_fs w (fs w ++ [(user w :: loc, Dir)]))
                   (fs (set_fs w (fs w ++ [(user w :: loc, Dir)]))
                    ++ [(PyInt.to_string 0 :: locu, Dir)])).
  { unfold createTmpDir in Hrun. rewrite run_bind in Hrun. unfold gets in Hrun.
    rewrite (bind_Ok _ _ _ _ _ Hmk) in Hrun.
    rewrite (bind_Ok _ _ _ _ _ (iterdir_run _ _ _ Hempty)) in Hrun.
    cbn [map createTmpDir_loop] in Hrun.
    rewrite run_bind in Hrun. cbn [mret M_ret] in Hrun.
    rewrite Hj0 in Hrun. rewrite (bind_Ok _ _ _ _ _ Hmk0) in Hrun.
    apply (f_equal snd) in Hrun. cbn [snd] in Hrun. now rewrite <- Hrun. }
  rewrite Hw2'. unfold Pathlib.listdir.
  change (Pathlib.from (set_fs _ _) baseDir) with (Pathlib.from w baseDir).
  cbn [fs set_fs]. unfold locate in Hloc.
  rewrite <- app_assoc.
  rewrite (walk_app_fs _ _ _ _ _ Hloc), (node_at_app_Some _ _ _ _ Hnode).
  rewrite !children_app. simpl.
  rewrite decide_True by reflexivity.
  assert (Hlocu' : locu = user w :: loc).
  { pose proof (new_child_located w baseDir loc _ Hloc Hnode Hplain Hnew) as H.
    rewrite <- (joinpath_component baseDir _ Hcomp) in H.
    rewrite Hlocu in H. now injection H. }
  subst locu.
  rewrite decide_False by (intros H; exact (cons_neq_self _ _ (eq_sym H))).
  reflexivity.
Qed.

(** The integers of a numbered listing are the parsed names. *)
Lemma numbered_map (w : World) (names : list string) (ints : list Z) :
  numbered w names ints → ints = map (λ name, default 0 (py_int w name)) names.
Proof.
  induction 1 as [| name z names ints Hz _ IH]; [reflexivity |].
  simpl. rewrite Hz. simpl. now f_equal.
Qed.

Lemma numbered_of_names (w : World) (names : list string) :
  (∀ name, name ∈ names → is_Some (py_int w name)) →
  numbered w names (map (λ name, default 0 (py_int w name)) names).
Proof.
  intros H. unfold numbered. apply Forall2_fmap_r, Forall_Forall2_diag, Forall_forall.
  intros name Hin. unfold compose. destruct (H name Hin) as [z Hz].
  rewrite Hz. reflexivity.
Qed.

Lemma next_revision_perm (ints ints' : list Z) :
  ints ≡ₚ ints' → next_revision ints' = next_revision ints.
Proof.
  intros Hperm. destruct ints as [| x xs].
  - apply Permutation_nil_l in Hperm. now subst.
  - apply next_revision_unique.
    + intros z Hz. rewrite <- Hperm in Hz. now apply next_revision_above.
    + rewrite <- Hperm. now apply next_revision_pred.
Qed.

(** X9.  The directory [createTmpDir] returns does not depend on the order
    in which the entries of the per-user directory are listed: two worlds
    that list the same numbered entries in different orders get the same
    directory. *)
Theorem createTmpDir_listing_order (w w1 v v1 : World) (baseDir : Path)
    (names names' : list string) (ints : list Z) :
  user v = user w →
  int_non_ascii v1 = int_non_ascii w1 →
  Pathlib.mkdir (baseDir // user w) true true w = (Ok tt, w1) →
  Pathlib.listdir w1 (baseDir // user w) = inr names →
  Pathlib.mkdir (baseDir // user v) true true v = (Ok tt, v1) →
  Pathlib.listdir v1 (baseDir // user v) = inr names' →
  names ≡ₚ names' →
  numbered w1 names ints →
  (createTmpDir baseDir v).1 = (createTmpDir baseDir w).1
  ∧ (createTmpDir baseDir w).1
    = Ok (baseDir // user w // PyInt.to_string (next_revision ints)).
Proof.
  intros Huser Hint Hmk Hls Hmk' Hls' Hperm Hnum.
  assert (Hpy : ∀ s, py_int v1 s = py_int w1 s).
  { intros s. unfold py_int. now rewrite Hint. }
  set (ints' := map (λ name, default 0 (py_int v1 name)) names').
  assert (Hnum' : numbered v1 names' ints').
  { apply numbered_of_names. intros name Hin. rewrite <- Hperm in Hin.
    apply list_elem_of_lookup in Hin as [i Hi].
    destruct (Forall2_lookup_l _ _ _ _ _ Hnum Hi) as (z & _ & Hz).
    rewrite Hpy, Hz. eauto. }
  assert (Hints : ints ≡ₚ ints').
  { rewrite (numbered_map _ _ _ Hnum). unfold ints'.
    rewrite (map_ext _ _ (λ name, f_equal (default 0) (Hpy name))).
    now apply fmap_Permutation. }
  destruct (createTmpDir_numbered w w1 baseDir names ints Hmk Hls Hnum) as (w2 & Hrun & _).
  destruct (createTmpDir_numbered v v1 baseDir names' ints' Hmk' Hls' Hnum')
    as (v2 & Hrun' & _).
  rewrite Hrun, Hrun'. cbn [fst].
  now rewrite (next_revision_perm _ _ Hints), Huser.
Qed.

(** ** The merge base *)

Lemma lstrip_fixed (s : string) : Str.lstrip (Str.lstrip s) = Str.lstrip s.
Proof.
  induction s as [| c s IH]; [reflexivity |]. cbn [Str.lstrip].
  destruct (Str.is_space c) eqn:Hc; [exact IH |]. cbn [Str.lstrip]. now rewrite Hc.
Qed.

Lemma rstrip_tail_fixed (c : ascii) (s : string) :
  Str.rstrip (String c s) = String c s → Str.rstrip s = s.
Proof.
  cbn [Str.rstrip]. destruct (Str.is_space c && Str.is_empty (Str.rstrip s));
    [discriminate | congruence].
Qed.

Lemma rstrip_fixed (s : string) : Str.rstrip (Str.rstrip s) = Str.rstrip s.
Proof.
  induction s as [| c s IH]; [reflexivity |]. cbn [Str.rstrip].
  destruct (Str.is_space c && Str.is_empty (Str.rstrip s)) eqn:Hc; [reflexivity |].
  cbn [Str.rstrip]. now rewrite IH, Hc.
Qed.

Lemma rstrip_lstrip_fixed (s : string) :
  Str.rstrip s = s → Str.rstrip (Str.lstrip s) = Str.lstrip s.
Proof.
  induction s as [| c s IH]; [reflexivity |]. intros Hfix. cbn [Str.lstrip].
  destruct (Str.is_space c); [| exact Hfix].
  apply IH. exact (rstrip_tail_fixed _ _ Hfix).
Qed.

(** Stripping leaves no white space at either end. *)
Lemma strip_fixed (s : string) :
  Str.lstrip (Str.strip s) = Str.strip s ∧ Str.rstrip (Str.strip s) = Str.strip s.
Proof.
  unfold Str.strip. split; [apply lstrip_fixed |].
  apply rstrip_lstrip_fixed, rstrip_fixed.
Qed.

Lemma rstrip_newline (ref : string) :
  Str.all_chars (λ c, negb (Str.is_space c)) ref = true →
  Str.rstrip (ref +:+ String Str.LF "") = ref.
Proof.
  induction ref as [| c ref IH]; [reflexivity |].
  cbn [Str.all_chars]. rewrite andb_true_iff, negb_true_iff. intros [Hc Hrest].
  change (String c ref +:+ String Str.LF "") with (String c (ref +:+ String Str.LF "")).
  cbn [Str.rstrip]. now rewrite Hc, (IH Hrest).
Qed.

Lemma lstrip_no_space (ref : string) :
  Str.all_chars (λ c, negb (Str.is_space c)) ref = true → Str.lstrip ref = ref.
Proof.
  destruct ref as [| c ref]; [reflexivity |].
  cbn [Str.all_chars Str.lstrip]. rewrite andb_true_iff, negb_true_iff.
  now intros [-> _].
Qed.

(** X10.  [getMergeBase] returns the revision the command printed, without
    the newline that ends the line: when the output is a text free of the
    six bytes [bytes.strip()] removes (tab, newline, vertical tab, form
    feed, carriage return, space), followed by a newline, the result is
    that text if it is well-formed UTF-8, with nothing printed, and
    [UnicodeDecodeError] is raised if it is not.  Whatever the command
    prints, a value that is returned is the stripped output, and neither
    begins nor ends with one of those six bytes (other white space, such as
    U+001C, is not stripped). *)
Theorem getMergeBase_revision (w : World) (start end_ : string) :
  (∀ ref,
     exits_zero_with w (merge_base_cmd start end_) (ref +:+ String Str.LF "") →
     Str.all_chars (λ c, negb (Str.is_space c)) ref = true →
     getMergeBase start end_ w
     = (if Str.utf8_valid ref then Ok ref else Raise UnicodeDecodeError, w))
  ∧ (∀ mergeBase w',
       getMergeBase start end_ w = (Ok mergeBase, w') →
       w' = w
       ∧ (∃ out, exits_zero_with w (merge_base_cmd start end_) out
                 ∧ mergeBase = Str.strip out)
       ∧ Str.lstrip mergeBase = mergeBase
       ∧ Str.rstrip mergeBase = mergeBase)
  ∧ Str.is_space "028" = false.
Proof.
  split; [| split; [| reflexivity]].
  - intros ref Hrun Hchars.
    assert (Hstrip : Str.strip (ref +:+ String Str.LF "") = ref).
    { unfold Str.strip. rewrite (rstrip_newline _ Hchars). now apply lstrip_no_space. }
    destruct (Str.utf8_valid ref) eqn:Hutf.
    + rewrite (getMergeBase_success w _ _ _ Hrun); rewrite Hstrip; auto.
    + unfold getMergeBase.
      rewrite (guarded_command_success w _ (λ out, Pathlib.decode (Str.strip out)) _ _ Hrun).
      rewrite Hstrip. unfold try_except, Pathlib.decode. rewrite Hutf. reflexivity.
  - intros mergeBase w' H.
    apply getMergeBase_Ok in H as (-> & out & Hrun & ->).
    split; [reflexivity |]. split; [eauto |]. apply strip_fixed.
Qed.

(** ** Glob lists without wildcards *)

Lemma keep_part_false (c : string) :
  PurePath.keep_part c = false → c = "" ∨ c = ".".
Proof.
  unfold PurePath.keep_part. destruct c as [| a s]; [auto |].
  cbn [Str.is_empty negb andb]. rewrite negb_false_iff.
  intros H. right. now apply String.eqb_eq.
Qed.

(** Dropping the empty and the dot components does not change where a
    path leads. *)
Lemma walk_keep (fs : FS) (loc l : Loc) (comps : list string) :
  Fs.walk fs loc comps = inr l →
  Fs.walk fs loc (filter (λ x, Is_true (PurePath.keep_part x)) comps) = inr l.
Proof.
  revert loc. induction comps as [| c rest IH]; intros loc; [auto |].
  cbn [Fs.walk]. destruct (Fs.step fs loc c) as [e | loc'] eqn:Hstep; [discriminate |].
  intros Hwalk. destruct (PurePath.keep_part c) eqn:Hkeep.
  - rewrite filter_cons_True by (rewrite Hkeep; exact I).
    cbn [Fs.walk]. rewrite Hstep. now apply IH.
  - rewrite filter_cons_False by (rewrite Hkeep; exact id).
    apply keep_part_false in Hkeep. unfold Fs.step in Hstep.
    destruct (Fs.node_at fs loc) as [[content |] |]; try discriminate.
    rewrite decide_True in Hstep by exact Hkeep. injection Hstep as <-.
    now apply IH.
Qed.

Lemma from_of_string (w : World) (c : ascii) (s : string) :
  Pathlib.from w (PurePath.of_string (String c s)) = Os.from w (String c s).
Proof.
  unfold Pathlib.from, PurePath.is_absolute, PurePath.of_string. cbn [root].
  destruct (Ascii.eqb_spec c Str.slash) as [-> | Hc].
  - destruct s as [| c2 s2]; [reflexivity |].
    destruct (Ascii.eqb_spec c2 Str.slash) as [-> | Hc2].
    + destruct s2 as [| c3 s3]; [reflexivity |].
      destruct c3 as [[|] [|] [|] [|] [|] [|] [|] [|]]; reflexivity.
    + destruct c2 as [[|] [|] [|] [|] [|] [|] [|] [|]]; try reflexivity.
      exfalso. apply Hc2. reflexivity.
  - rewrite (root_of_relative c s Hc).
    destruct c as [[|] [|] [|] [|] [|] [|] [|] [|]]; try reflexivity.
    exfalso. apply Hc. reflexivity.
Qed.

(** What the operating system finds under a path string, [pathlib] finds
    under the path made from it. *)
Lemma stat_of_string (w : World) (s : string) (n : Node) :
  Os.stat w s = inr n → Pathlib.stat w (PurePath.of_string s) = inr n.
Proof.
  unfold Os.stat. destruct s as [| c s]; [discriminate |]. cbn [Str.is_empty].
  unfold Pathlib.stat. rewrite from_of_string.
  unfold Fs.stat. cbn [PurePath.of_string tail].
  destruct (Fs.walk (fs w) (Os.from w (String c s)) (Str.split Str.slash (String c s)))
    as [e | l] eqn:Hwalk; [discriminate |].
  now rewrite (walk_keep _ _ _ _ Hwalk).
Qed.

(** The file system has no links, so nothing dangles: what is found under
    a path string is found under its path. *)
Lemma lexists_path_exists (w : World) (s : string) :
  Os.lexists w s = true → Pathlib.path_exists w (PurePath.of_string s) = true.
Proof.
  unfold Os.lexists, Pathlib.path_exists.
  destruct (Os.stat w s) as [e | n] eqn:Hstat; [discriminate |].
  now rewrite (stat_of_string _ _ _ Hstat).
Qed.

Lemma append_empty_r (s : string) : s +:+ "" = s.
Proof.
  induction s as [| c s IH]; [reflexivity |].
  change (String c (s +:+ "") = String c s). now rewrite IH.
Qed.

Lemma cut_last_slash_app (p h t : string) :
  Os.cut_last_slash p = Some (h, t) → p = h +:+ t.
Proof.
  revert h t. induction p as [| c p IH]; intros h t; [discriminate |].
  cbn [Os.cut_last_slash].
  destruct (Os.cut_last_slash p) as [[h' t'] |].
  - intros [= <- <-]. change (String c p = String c (h' +:+ t')).
    now rewrite (IH h' t' eq_refl).
  - destruct (Ascii.eqb_spec c Str.slash) as [-> |]; [| discriminate].
    intros [= <- <-]. reflexivity.
Qed.

Lemma rstrip_slashes_app (h : string) :
  ∃ t, Str.all_chars (Ascii.eqb Str.slash) t = true ∧ h = Os.rstrip_slashes h +:+ t.
Proof.
  induction h as [| c h (t & Ht & IH)]; [exists ""; auto |].
  cbn [Os.rstrip_slashes].
  destruct (Ascii.eqb c Str.slash && Str.is_empty (Os.rstrip_slashes h)) eqn:Hc.
  - apply andb_true_iff in Hc as [Hc Hempty]. apply Ascii.eqb_eq in Hc as ->.
    destruct (Os.rstrip_slashes h); [| discriminate].
    change ("" +:+ t) with t in IH. subst h.
    exists (String Str.slash t). split; [| reflexivity].
    cbn [Str.all_chars]. now rewrite Ht.
  - exists t. split; [exact Ht |].
    change (String c h = String c (Os.rstrip_slashes h +:+ t)). now rewrite <- IH.
Qed.

Lemma split_slashes (t : string) :
  Str.all_chars (Ascii.eqb Str.slash) t = true →
  Str.split Str.slash t = "" :: replicate (String.length t) "".
Proof.
  induction t as [| c t IH]; [reflexivity |].
  cbn [Str.all_chars]. rewrite andb_true_iff. intros [Hc Ht].
  apply Ascii.eqb_eq in Hc as <-. cbn [Str.split]. rewrite Ascii.eqb_refl.
  now rewrite (IH Ht).
Qed.

(** [str.split] never returns the empty list. *)
Lemma split_cons (sep : ascii) (s : string) : ∃ x xs, Str.split sep s = x :: xs.
Proof.
  induction s as [| c s (x & xs & IH)]; [simpl; eauto |].
  cbn [Str.split]. rewrite IH. destruct (Ascii.eqb c sep); eauto.
Qed.

Lemma split_app_slashes (s t : string) :
  Str.all_chars (Ascii.eqb Str.slash) t = true →
  Str.split Str.slash (s +:+ t)
  = Str.split Str.slash s ++ replicate (String.length t) "".
Proof.
  intros Ht. induction s as [| c s IH]; [now apply split_slashes |].
  change (String c s +:+ t) with (String c (s +:+ t)). cbn [Str.split].
  rewrite IH. destruct (Ascii.eqb c Str.slash); [reflexivity |].
  destruct (split_cons Str.slash s) as (x & xs & ->). reflexivity.
Qed.

Lemma walk_empties (fs : FS) (l : Loc) (k : nat) :
  Fs.node_at fs l = Some Dir → Fs.walk fs l (replicate k "") = inr l.
Proof.
  intros Hnode. induction k as [| k IH]; [reflexivity |].
  cbn [replicate Fs.walk]. unfold Fs.step. rewrite Hnode.
  rewrite decide_True by (left; reflexivity). exact IH.
Qed.

(** Slashes after the name of a directory still name it. *)
Lemma stat_dir_slashes (w : World) (d t : string) :
  Str.all_chars (Ascii.eqb Str.slash) t = true →
  Os.stat w d = inr Dir → Os.stat w (d +:+ t) = inr Dir.
Proof.
  intros Ht. unfold Os.stat. destruct d as [| c d]; [discriminate |].
  change (String c d +:+ t) with (String c (d +:+ t)). cbn [Str.is_empty].
  change (Os.from w (String c (d +:+ t))) with (Os.from w (String c d)).
  change (String c (d +:+ t)) with (String c d +:+ t).
  rewrite (split_app_slashes _ _ Ht). unfold Fs.stat. rewrite walk_app.
  destruct (Fs.walk (fs w) (Os.from w (String c d)) (Str.split Str.slash (String c d)))
    as [e | l]; [discriminate |].
  destruct (Fs.node_at (fs w) l) as [[content |] |] eqn:Hnode; try discriminate.
  intros _. now rewrite (walk_empties _ _ _ Hnode), Hnode.
Qed.

(** The head [cut_last_slash] returns ends with a slash. *)
Lemma cut_last_slash_head (p h t : string) :
  Os.cut_last_slash p = Some (h, t) → ∃ h', h = h' +:+ "/".
Proof.
  revert h t. induction p as [| c p IH]; intros h t; [discriminate |].
  cbn [Os.cut_last_slash].
  destruct (Os.cut_last_slash p) as [[h1 t1] |].
  - intros [= <- <-]. destruct (IH h1 t1 eq_refl) as [h' ->].
    now exists (String c h').
  - destruct (Ascii.eqb c Str.slash); [| discriminate].
    intros [= <- <-]. now exists "".
Qed.

Lemma rstrip_slashes_snoc (h : string) :
  Os.rstrip_slashes (h +:+ "/") = Os.rstrip_slashes h.
Proof.
  induction h as [| c h IH]; [reflexivity |].
  rewrite append_cons. cbn [Os.rstrip_slashes]. now rewrite IH.
Qed.

Lemma all_slashes_snoc (t : string) :
  Str.all_chars (Ascii.eqb Str.slash) t = true →
  Str.all_chars (Ascii.eqb Str.slash) (t +:+ "/") = true.
Proof.
  induction t as [| c t IH]; [reflexivity |].
  rewrite append_cons. cbn [Str.all_chars]. rewrite !andb_true_iff.
  intros [Hc Ht]. auto.
Qed.

Lemma length_snoc (t : string) : (0 < String.length (t +:+ "/"))%nat.
Proof. destruct t; simpl; lia. Qed.

(** What slashes after a path string demand: a directory. *)
Lemma stat_slashes_dir (w : World) (d t : string) (n : Node) :
  Str.all_chars (Ascii.eqb Str.slash) t = true →
  (0 < String.length t)%nat →
  d ≠ "" →
  Os.stat w (d +:+ t) = inr n → n = Dir ∧ Os.stat w d = inr Dir.
Proof.
  intros Ht Hlen Hd. unfold Os.stat. destruct d as [| c d]; [congruence |].
  rewrite append_cons. cbn [Str.is_empty].
  change (Os.from w (String c (d +:+ t))) with (Os.from w (String c d)).
  rewrite <- append_cons.
  rewrite (split_app_slashes _ _ Ht). unfold Fs.stat. rewrite walk_app.
  destruct (Fs.walk (fs w) (Os.from w (String c d)) (Str.split Str.slash (String c d)))
    as [e | l]; [discriminate |].
  destruct (String.length t) as [| k]; [lia |]. cbn [replicate Fs.walk].
  unfold Fs.step at 1.
  destruct (Fs.node_at (fs w) l) as [[content |] |] eqn:Hnode; try discriminate.
  rewrite decide_True by (left; reflexivity).
  rewrite (walk_empties _ _ _ Hnode), Hnode. intros [= <-]. split; reflexivity.
Qed.

(** A path string of slashes names the root directory. *)
Lemma stat_all_slashes (w : World) (p : string) :
  Str.all_chars (Ascii.eqb Str.slash) p = true → p ≠ "" → Os.stat w p = inr Dir.
Proof.
  intros Hp Hne. unfold Os.stat. destruct p as [| c p]; [congruence |].
  cbn [Str.is_empty]. rewrite (split_slashes _ Hp).
  cbn [Str.all_chars] in Hp. apply andb_true_iff in Hp as [Hc _].
  apply Ascii.eqb_eq in Hc as <-. cbn [Os.from].
  unfold Fs.stat. change ("" :: replicate ?k "") with (replicate (S k) "").
  now rewrite (walk_empties (fs w) [] _ eq_refl).
Qed.

(** A pattern without wildcards expands to itself when the path string
    names something, and to nothing otherwise. *)
Lemma glob_literal (w : World) (pattern : string) :
  Os.has_magic pattern = false →
  Os.glob w pattern = if Os.lexists w pattern then [pattern] else [].
Proof.
  intros Hmagic. unfold Os.glob.
  destruct (Os.path_split pattern) as [dirname basename] eqn:Hsplit.
  rewrite Hmagic.
  destruct (Str.is_empty basename) eqn:Hbase; cbn [negb]; [| reflexivity].
  unfold Os.path_split in Hsplit.
  destruct (Os.cut_last_slash pattern) as [[h t] |] eqn:Hcut.
  - injection Hsplit as Hd <-. destruct t; [| discriminate].
    pose proof (cut_last_slash_head _ _ _ Hcut) as [h' Hh'].
    apply cut_last_slash_app in Hcut. rewrite append_empty_r in Hcut. subst h.
    destruct (Str.all_chars (Ascii.eqb Str.slash) pattern) eqn:Hall.
    + subst dirname. unfold Os.isdir, Os.lexists.
      rewrite (stat_all_slashes w pattern Hall); [reflexivity |].
      rewrite Hh'. now destruct h'.
    + rewrite Hh', rstrip_slashes_snoc in Hd.
      destruct (rstrip_slashes_app h') as (t & Ht & Hp).
      assert (Hpat : pattern = dirname +:+ (t +:+ "/")).
      { rewrite Hh'. rewrite Hp at 1. rewrite Hd. apply append_assoc. }
      assert (Hne : dirname ≠ "").
      { intros ->. change ("" +:+ (t +:+ "/")) with (t +:+ "/") in Hpat.
        rewrite Hpat, (all_slashes_snoc _ Ht) in Hall. discriminate. }
      unfold Os.isdir, Os.lexists.
      destruct (Os.stat w pattern) as [e | n] eqn:Hstat.
      * destruct (Os.stat w dirname) as [e' | [content |]] eqn:Hdir; try reflexivity.
        rewrite Hpat, (stat_dir_slashes w dirname _ (all_slashes_snoc _ Ht) Hdir) in Hstat.
        discriminate.
      * rewrite Hpat in Hstat.
        destruct (stat_slashes_dir w dirname _ n (all_slashes_snoc _ Ht) (length_snoc t)
                    Hne Hstat) as [_ ->].
        reflexivity.
  - injection Hsplit as <- <-. destruct pattern; [reflexivity | discriminate].
Qed.

(** The union over lines without wildcards: the paths of the lines that
    name something. *)
Lemma glob_union_literal (w : World) (lines : list string) (p : Path) :
  (∀ line, line ∈ lines → Os.has_magic line = false) →
  p ∈ glob_union w lines
  ↔ ∃ line, line ∈ lines ∧ Os.lexists w line = true ∧ p = PurePath.of_string line.
Proof.
  intros Hlit. rewrite elem_of_glob_union. split.
  - intros (line & Hin & Hp). exists line. split; [exact Hin |].
    rewrite (glob_literal w line (Hlit line Hin)) in Hp.
    destruct (Os.lexists w line); [| inversion Hp].
    split; [reflexivity |]. now apply list_elem_of_singleton in Hp.
  - intros (line & Hin & Hex & ->). exists line. split; [exact Hin |].
    rewrite (glob_literal w line (Hlit line Hin)), Hex. left.
Qed.

(** X11.  A glob list without wildcard characters, none of whose lines
    names a dangling link (what [os.path.lexists] finds under a line,
    [Path.exists] finds under its path), resolves to the set of the paths
    [Path(line)] of the lines for which [os.path.lexists(line)] holds: a
    line contributes exactly when the path string itself, as written,
    names something on disk.  So a line that ends in a slash contributes
    only when it names a directory, and the empty line contributes
    nothing. *)
Theorem literal_globs_resolve (w : World) (globlistFile : Path) (text : string) :
  Pathlib.read_text globlistFile w = (Ok text, w) →
  (∀ line, line ∈ Str.split Str.LF text → Os.has_magic line = false) →
  (∀ line, line ∈ Str.split Str.LF text → Os.lexists w line = true →
     Pathlib.path_exists w (PurePath.of_string line) = true) →
  getGlobsFromFile globlistFile w
  = (Ok (list_to_set
           (map PurePath.of_string
              (filter (λ line, Is_true (Os.lexists w line)) (Str.split Str.LF text)))), w)
  ∧ (∀ p : Path,
       p ∈ (list_to_set
              (map PurePath.of_string
                 (filter (λ line, Is_true (Os.lexists w line)) (Str.split Str.LF text)))
            : gset Path)
       ↔ ∃ line, line ∈ Str.split Str.LF text
                 ∧ Os.lexists w line = true ∧ p = PurePath.of_string line)
  ∧ Os.lexists w "" = false.
Proof.
  intros Hread Hlit Hlinks.
  assert (Hmem : ∀ p : Path,
            p ∈ (list_to_set
                   (map PurePath.of_string
                      (filter (λ line, Is_true (Os.lexists w line))
                         (Str.split Str.LF text))) : gset Path)
            ↔ ∃ line, line ∈ Str.split Str.LF text
                      ∧ Os.lexists w line = true ∧ p = PurePath.of_string line).
  { intros p. rewrite elem_of_list_to_set, list_elem_of_fmap. split.
    - intros (line & -> & Hin). apply list_elem_of_filter in Hin as [Hex Hin].
      exists line. split; [exact Hin |]. split; [now apply Is_true_true | reflexivity].
    - intros (line & Hin & Hex & ->). exists line. split; [reflexivity |].
      apply list_elem_of_filter. split; [now apply Is_true_true | exact Hin]. }
  assert (Heq : glob_union w (Str.split Str.LF text)
                = list_to_set
                    (map PurePath.of_string
                       (filter (λ line, Is_true (Os.lexists w line))
                          (Str.split Str.LF text)))).
  { apply set_eq. intros p. rewrite Hmem. now apply glob_union_literal. }
  split; [| split; [exact Hmem | reflexivity]].
  rewrite <- Heq. apply getGlobsFromFile_resolved; [exact Hread |].
  intros p Hp. apply (glob_union_literal _ _ _ Hlit) in Hp as (line & Hin & Hex & ->).
  now rewrite (Hlinks line Hin Hex).
Qed.

(** ** Blank output *)

(** X12.  [getAllTrackedFiles] never returns the empty list: the split of
    the output always has a first line.  When the command prints nothing
    but white space, the result is the one-element list of the current
    directory. *)
Theorem getAllTrackedFiles_never_empty (w w' : World) (tracked : list Path) :
  getAllTrackedFiles w = (Ok tracked, w') →
  tracked ≠ []
  ∧ ∀ out,
      exits_zero_with w ls_tree_cmd out →
      Str.all_chars Str.is_space out = true →
      tracked = [PurePath.of_string ""].
Proof.
  intros H. apply getAllTrackedFiles_Ok in H as (_ & out & Hrun & ->). split.
  - unfold path_candidates.
    destruct (split_cons Str.LF (Str.strip out)) as (x & xs & ->). discriminate.
  - intros out' Hrun' Hblank. unfold exits_zero_with in *.
    rewrite Hrun in Hrun'. injection Hrun' as ->.
    unfold path_candidates, Str.strip. now rewrite (rstrip_blank _ Hblank).
Qed.

(** * The further properties on the sample worlds *)

Lemma not_all_exist_decide (w : World) (paths : gset Path) :
  bool_decide (set_Forall (λ path, Is_true (Pathlib.path_exists w path)) paths) = false →
  ¬ all_exist w paths.
Proof. apply bool_decide_eq_false_1. Qed.

Lemma no_orphans_sample : no_orphans Sample.disk.
Proof.
  intros c l n Hin Hne. unfold Sample.disk in Hin.
  repeat (apply elem_of_cons in Hin as [Hin | Hin];
          [injection Hin as -> -> ->; first [reflexivity | contradiction] |]).
  inversion Hin.
Qed.


Lemma getTrackedFormattablePaths_intersection_witness :
  getAllTrackedFiles Sample.repo
  = (Ok (map PurePath.of_string ["a.py"; "gone.py"]), Sample.repo)
  ∧ getFormattablePaths Sample.repo
    = (Ok (list_to_set (map PurePath.of_string ["a.py"; "c.py"; "d.py"])), Sample.repo)
  ∧ getTrackedFormattablePaths Sample.repo
    = (Ok (list_to_set (map PurePath.of_string ["a.py"; "gone.py"])
           ∩ list_to_set (map PurePath.of_string ["a.py"; "c.py"; "d.py"])), Sample.repo).
Proof.
  assert (H1 : getAllTrackedFiles Sample.repo
               = (Ok (map PurePath.of_string ["a.py"; "gone.py"]), Sample.repo))
    by (vm_compute; reflexivity).
  assert (H2 : getFormattablePaths Sample.repo
               = (Ok (list_to_set (map PurePath.of_string ["a.py"; "c.py"; "d.py"])),
                  Sample.repo)) by (vm_compute; reflexivity).
  split; [exact H1 | split; [exact H2 |]].
  exact (proj1 (getTrackedFormattablePaths_intersection _ _ _ _ _ H1 H2)).
Defined.

Lemma denied_paths_never_selected_witness :
  Pathlib.read_text (DENYLISTPATH Sample.repo) Sample.repo
  = (Ok Sample.denylist, Sample.repo)
  ∧ PurePath.of_string "b.txt"
    ∈ glob_union Sample.repo (Str.split Str.LF Sample.denylist)
  ∧ ∀ files w',
      getFilesToFormat "main" Sample.repo = (Ok files, w') →
      PurePath.of_string "b.txt" ∉ files.
Proof.
  assert (H1 : Pathlib.read_text (DENYLISTPATH Sample.repo) Sample.repo
               = (Ok Sample.denylist, Sample.repo)) by (vm_compute; reflexivity).
  assert (H2 : PurePath.of_string "b.txt"
               ∈ glob_union Sample.repo (Str.split Str.LF Sample.denylist)).
  { apply elem_of_glob_union. exists "b.txt". split.
    - change (Str.split Str.LF Sample.denylist) with ["e.py"; "b.txt"; ""].
      right; left.
    - change (map PurePath.of_string (Os.glob Sample.repo "b.txt"))
        with [PurePath.of_string "b.txt"].
      left. }
  split; [exact H1 | split; [exact H2 |]].
  exact (proj1 (denied_paths_never_selected _ _ _ H1 H2) "main").
Defined.

Lemma stale_match_aborts_witness :
  Pathlib.read_text (ALLOWLISTPATH Scene.stale) Scene.stale
  = (Ok Sample.allowlist, Scene.stale)
  ∧ ¬ all_exist Scene.stale (glob_union Scene.stale (Str.split Str.LF Sample.allowlist))
  ∧ getGlobsFromFile (ALLOWLISTPATH Scene.stale) Scene.stale
    = (Raise AssertionError, Scene.stale)
  ∧ getFormattablePaths Scene.stale = (Raise AssertionError, Scene.stale).
Proof.
  assert (H1 : Pathlib.read_text (ALLOWLISTPATH Scene.stale) Scene.stale
               = (Ok Sample.allowlist, Scene.stale)) by (vm_compute; reflexivity).
  assert (H2 : ¬ all_exist Scene.stale
                 (glob_union Scene.stale (Str.split Str.LF Sample.allowlist)))
    by (apply not_all_exist_decide; vm_compute; reflexivity).
  destruct (stale_match_aborts _ _ _ H1 H2) as [A B].
  split; [exact H1 | split; [exact H2 | split; [exact A | exact (B eq_refl)]]].
Defined.

Lemma createTmpDir_only_adds_witness :
  createTmpDir Sample.tmp (Sample.with_scratch ["0"; "scratch"])
  = ((createTmpDir Sample.tmp (Sample.with_scratch ["0"; "scratch"])).1,
     (createTmpDir Sample.tmp (Sample.with_scratch ["0"; "scratch"])).2)
  ∧ Pathlib.stat (Sample.with_scratch ["0"; "scratch"]) (PurePath.of_string "/tmp/alice/0")
    = inr Dir
  ∧ Pathlib.stat (createTmpDir Sample.tmp (Sample.with_scratch ["0"; "scratch"])).2
      (PurePath.of_string "/tmp/alice/0")
    = inr Dir.
Proof.
  assert (H1 : createTmpDir Sample.tmp (Sample.with_scratch ["0"; "scratch"])
               = ((createTmpDir Sample.tmp (Sample.with_scratch ["0"; "scratch"])).1,
                  (createTmpDir Sample.tmp (Sample.with_scratch ["0"; "scratch"])).2))
    by apply surjective_pairing.
  assert (H2 : Pathlib.stat (Sample.with_scratch ["0"; "scratch"])
                 (PurePath.of_string "/tmp/alice/0") = inr Dir) by reflexivity.
  split; [exact H1 | split; [exact H2 |]].
  exact (proj2 (createTmpDir_only_adds _ _ _ _ H1) _ _ H2).
Defined.

Lemma createTmpDir_twice_witness :
  let w := Sample.with_scratch ["1"; "3"; "0"] in
  Pathlib.mkdir (Sample.tmp // "alice") true true w = (Ok tt, w)
  ∧ Pathlib.listdir w (Sample.tmp // "alice") = inr ["1"; "3"; "0"]
  ∧ numbered w ["1"; "3"; "0"] [1; 3; 0]
  ∧ ∃ w2 w3,
      createTmpDir Sample.tmp w = (Ok (PurePath.of_string "/tmp/alice/4"), w2)
      ∧ createTmpDir Sample.tmp w2 = (Ok (PurePath.of_string "/tmp/alice/5"), w3).
Proof.
  intros w.
  assert (H1 : Pathlib.mkdir (Sample.tmp // "alice") true true w = (Ok tt, w))
    by (vm_compute; reflexivity).
  assert (H2 : Pathlib.listdir w (Sample.tmp // "alice") = inr ["1"; "3"; "0"])
    by (vm_compute; reflexivity).
  assert (H3 : numbered w ["1"; "3"; "0"] [1; 3; 0]) by (repeat constructor).
  split; [exact H1 | split; [exact H2 | split; [exact H3 |]]].
  destruct (createTmpDir_twice w w Sample.tmp _ _ H1 H2 H3) as (w2 & w3 & A & B & _).
  exists w2, w3. split; [exact A | exact B].
Defined.

Lemma createTmpDir_file_in_the_way_witness :
  Pathlib.stat Scene.taken (Sample.tmp // "alice") = inr (File "notes")
  ∧ createTmpDir Sample.tmp Scene.taken
    = (Raise (OSError EEXIST "/tmp/alice"), Scene.taken).
Proof.
  assert (H1 : Pathlib.stat Scene.taken (Sample.tmp // "alice") = inr (File "notes"))
    by reflexivity.
  split; [exact H1 |].
  exact (createTmpDir_file_in_the_way Scene.taken Sample.tmp _ H1).
Defined.

Lemma createTmpDir_fresh_user_witness :
  no_orphans (fs Sample.repo)
  ∧ component (user Sample.repo)
  ∧ within_limits (Sample.tmp // user Sample.repo // "0")
  ∧ Pathlib.listdir Sample.repo Sample.tmp = inr []
  ∧ (user Sample.repo ∉ @nil string)
  ∧ ∃ w2,
      createTmpDir Sample.tmp Sample.repo = (Ok (PurePath.of_string "/tmp/alice/0"), w2)
      ∧ Pathlib.listdir w2 Sample.tmp = inr ["alice"]
      ∧ Pathlib.listdir w2 (PurePath.of_string "/tmp/alice") = inr ["0"].
Proof.
  assert (H1 : no_orphans (fs Sample.repo)) by exact no_orphans_sample.
  assert (H2 : component (user Sample.repo)).
  { split; [| reflexivity]. intros [H | [H | H]]; discriminate. }
  assert (H0 : within_limits (Sample.tmp // user Sample.repo // "0"))
    by (apply within_limits_check; reflexivity).
  assert (H3 : Pathlib.listdir Sample.repo Sample.tmp = inr []) by reflexivity.
  assert (H4 : user Sample.repo ∉ @nil string) by (inversion 1).
  split; [exact H1 | split; [exact H2 | split; [exact H0 | split; [exact H3 |
    split; [exact H4 |]]]]].
  destruct (createTmpDir_fresh_user _ _ _ H1 H2 H0 H3 H4) as (w2 & A & B & C & _).
  exists w2. split; [exact A | split; [exact B | exact C]].
Defined.

Lemma createTmpDir_listing_order_witness :
  let w := Sample.with_scratch ["1"; "3"; "0"] in
  let v := Sample.with_scratch ["0"; "1"; "3"] in
  user v = user w
  ∧ int_non_ascii v = int_non_ascii w
  ∧ Pathlib.mkdir (Sample.tmp // "alice") true true w = (Ok tt, w)
  ∧ Pathlib.listdir w (Sample.tmp // "alice") = inr ["1"; "3"; "0"]
  ∧ Pathlib.mkdir (Sample.tmp // "alice") true true v = (Ok tt, v)
  ∧ Pathlib.listdir v (Sample.tmp // "alice") = inr ["0"; "1"; "3"]
  ∧ ["1"; "3"; "0"] ≡ₚ ["0"; "1"; "3"]
  ∧ numbered w ["1"; "3"; "0"] [1; 3; 0]
  ∧ (createTmpDir Sample.tmp v).1 = (createTmpDir Sample.tmp w).1.
Proof.
  intros w v.
  assert (H1 : user v = user w) by reflexivity.
  assert (H2 : int_non_ascii v = int_non_ascii w) by reflexivity.
  assert (H3 : Pathlib.mkdir (Sample.tmp // "alice") true true w = (Ok tt, w))
    by (vm_compute; reflexivity).
  assert (H4 : Pathlib.listdir w (Sample.tmp // "alice") = inr ["1"; "3"; "0"])
    by (vm_compute; reflexivity).
  assert (H5 : Pathlib.mkdir (Sample.tmp // "alice") true true v = (Ok tt, v))
    by (vm_compute; reflexivity).
  assert (H6 : Pathlib.listdir v (Sample.tmp // "alice") = inr ["0"; "1"; "3"])
    by (vm_compute; reflexivity).
  assert (H7 : ["1"; "3"; "0"] ≡ₚ ["0"; "1"; "3"]).
  { apply (Permutation_cons_app ["0"] ["3"] "1"), perm_swap. }
  assert (H8 : numbered w ["1"; "3"; "0"] [1; 3; 0]) by (repeat constructor).
  repeat (split; [assumption |]).
  exact (proj1 (createTmpDir_listing_order w w v v Sample.tmp _ _ _ H1 H2 H3 H4 H5 H6 H7 H8)).
Defined.

Lemma getMergeBase_revision_witness :
  exits_zero_with Sample.repo (merge_base_cmd "main" "HEAD")
    ("0123abc" +:+ String Str.LF "")
  ∧ Str.all_chars (λ c, negb (Str.is_space c)) "0123abc" = true
  ∧ getMergeBase "main" "HEAD" Sample.repo = (Ok "0123abc", Sample.repo).
Proof.
  assert (H1 : exits_zero_with Sample.repo (merge_base_cmd "main" "HEAD")
                 ("0123abc" +:+ String Str.LF "")) by reflexivity.
  assert (H2 : Str.all_chars (λ c, negb (Str.is_space c)) "0123abc" = true)
    by reflexivity.
  split; [exact H1 | split; [exact H2 |]].
  exact (proj1 (getMergeBase_revision Sample.repo "main" "HEAD") "0123abc" H1 H2).
Defined.

Lemma literal_globs_resolve_witness :
  Pathlib.read_text (PurePath.of_string "literal.txt") Scene.literal
  = (Ok (Sample.text Scene.literal_lines), Scene.literal)
  ∧ (∀ line, line ∈ Str.split Str.LF (Sample.text Scene.literal_lines) →
       Os.has_magic line = false)
  ∧ (∀ line, line ∈ Str.split Str.LF (Sample.text Scene.literal_lines) →
       Os.lexists Scene.literal line = true →
       Pathlib.path_exists Scene.literal (PurePath.of_string line) = true)
  ∧ getGlobsFromFile (PurePath.of_string "literal.txt") Scene.literal
    = (Ok {[ PurePath.of_string "a.py"; PurePath.of_string "lint" ]}, Scene.literal)
  ∧ Os.lexists Scene.literal "a.py/" = false
  ∧ Pathlib.path_exists Scene.literal (PurePath.of_string "a.py/") = true.
Proof.
  assert (H1 : Pathlib.read_text (PurePath.of_string "literal.txt") Scene.literal
               = (Ok (Sample.text Scene.literal_lines), Scene.literal))
    by (vm_compute; reflexivity).
  assert (Hlines : Str.split Str.LF (Sample.text Scene.literal_lines)
                   = Scene.literal_lines) by reflexivity.
  assert (H2 : ∀ line, line ∈ Str.split Str.LF (Sample.text Scene.literal_lines) →
               Os.has_magic line = false).
  { intros line Hin. rewrite Hlines in Hin. unfold Scene.literal_lines in Hin.
    repeat (apply elem_of_cons in Hin as [-> | Hin]; [reflexivity |]). inversion Hin. }
  assert (H3 : ∀ line, line ∈ Str.split Str.LF (Sample.text Scene.literal_lines) →
               Os.lexists Scene.literal line = true →
               Pathlib.path_exists Scene.literal (PurePath.of_string line) = true).
  { intros line Hin. rewrite Hlines in Hin. unfold Scene.literal_lines in Hin.
    repeat (apply elem_of_cons in Hin as [-> | Hin];
            [vm_compute; first [reflexivity | discriminate] |]).
    inversion Hin. }
  split; [exact H1 | split; [exact H2 | split; [exact H3 |]]].
  split; [| split; vm_compute; reflexivity].
  rewrite (proj1 (literal_globs_resolve _ _ _ H1 H2 H3)). vm_compute. reflexivity.
Defined.

Lemma getAllTrackedFiles_never_empty_witness :
  getAllTrackedFiles Sample.repo
  = (Ok (map PurePath.of_string ["a.py"; "gone.py"]), Sample.repo)
  ∧ map PurePath.of_string ["a.py"; "gone.py"] ≠ [].
Proof.
  assert (H1 : getAllTrackedFiles Sample.repo
               = (Ok (map PurePath.of_string ["a.py"; "gone.py"]), Sample.repo))
    by (vm_compute; reflexivity).
  split; [exact H1 |].
  exact (proj1 (getAllTrackedFiles_never_empty _ _ _ H1)).
Defined.
